(** * MacroMoney: headline -> theme -> severity -> rebalance

    A shallow embedding of the four variants of the MacroMoney pipeline:

    - [V01]  : the v0.1 demo  (simulate_macro_cluster, generate_suggested_portfolio);
    - [V21]  : the v2.1 lexical demo (classify_news, compute_impact_score,
               apply_rebalance and the analysis script);
    - [V24E] : the v2.4 embedding-powered engine (compute_sentiment,
               compute_severity, horizon_threshold, apply_rebalance);
    - [V24H] : the v2.4 horizon-aware lexical engine (classify_news,
               compute_impact_score with floor 20, horizon_threshold,
               apply_rebalance and the analysis script).

    Modelling conventions.
    - Python numbers (int and float) are exact rationals [Q]; float rounding
      error is not modelled.  Python's [==] on numbers is [Qeq].
    - A [str] is a [string] of ASCII text; [lower] folds the letters A-Z.
    - A [dict] is an association list in insertion order, which is also the
      iteration order of [.items()], [.values()] and [for k in d].
    - An exception is the [Raise] case of [result]. *)

From Stdlib Require Import Bool List String Ascii ZArith QArith Qround Qabs Lia Lqa.
From Stdlib Require Import DecimalString.
Import ListNotations.

Open Scope Q_scope.

(** ** The Python fragment the program uses *)

Module Py.

Inductive exn : Type :=
| KeyError (key : string)
| IndexError
| ZeroDivisionError.

Inductive result (A : Type) : Type :=
| Ok (a : A)
| Raise (e : exn).
Arguments Ok {A} a.
Arguments Raise {A} e.

Definition bind {A B : Type} (m : result A) (k : A -> result B) : result B :=
  match m with
  | Ok a => k a
  | Raise e => Raise e
  end.

Definition is_ok {A : Type} (m : result A) : bool :=
  match m with Ok _ => true | Raise _ => false end.

(** *** str *)

Definition lower_char (c : ascii) : ascii :=
  let n := nat_of_ascii c in
  if (65 <=? n)%nat && (n <=? 90)%nat then ascii_of_nat (n + 32) else c.

Fixpoint lower (s : string) : string :=
  match s with
  | EmptyString => EmptyString
  | String c s' => String (lower_char c) (lower s')
  end.

(** [contains w s] is Python's [w in s] on strings. *)
Fixpoint contains (w s : string) : bool :=
  String.prefix w s ||
  match s with
  | EmptyString => false
  | String _ s' => contains w s'
  end.

(** [any(w in text for w in words)] *)
Definition any_in (words : list string) (text : string) : bool :=
  existsb (fun w => contains w text) words.

(** Truthiness of a [str]. *)
Definition truthy (s : string) : bool :=
  match s with EmptyString => false | String _ _ => true end.

(** *** numbers *)

Definition ltb (a b : Q) : bool := negb (Qle_bool b a).
Definition leb (a b : Q) : bool := Qle_bool a b.
Definition geb (a b : Q) : bool := Qle_bool b a.
Definition gtb (a b : Q) : bool := negb (Qle_bool a b).

(** [min(a, b)] and [max(a, b)]: the first argument unless the second is
    strictly smaller (larger). *)
Definition min (a b : Q) : Q := if ltb b a then b else a.
Definition max (a b : Q) : Q := if gtb b a then b else a.

(** True division. *)
Definition div (a b : Q) : result Q :=
  if Qeq_bool b 0 then Raise ZeroDivisionError else Ok (a / b).

(** Rounding to the nearest integer, ties to the even one. *)
Definition round_half_even (x : Q) : Z :=
  let f := Qfloor x in
  match Qcompare (x - inject_Z f) (1 # 2) with
  | Lt => f
  | Gt => (f + 1)%Z
  | Eq => if Z.even f then f else (f + 1)%Z
  end.

(** [round(x, 2)] *)
Definition round2 (x : Q) : Q := Qmake (round_half_even (x * 100)) 100.

(** *** list *)

(** [l[i]], negative indices counting from the end. *)
Definition index {A : Type} (l : list A) (i : Z) : result A :=
  let n := Z.of_nat (List.length l) in
  let j := if (i <? 0)%Z then (n + i)%Z else i in
  if (j <? 0)%Z then Raise IndexError
  else match nth_error l (Z.to_nat j) with
       | Some a => Ok a
       | None => Raise IndexError
       end.

(** *** dict *)

Definition dict (V : Type) : Type := list (string * V).

Fixpoint get {V : Type} (k : string) (d : dict V) : option V :=
  match d with
  | [] => None
  | (k', v) :: d' => if String.eqb k k' then Some v else get k d'
  end.

(** [k in d] *)
Definition mem {V : Type} (k : string) (d : dict V) : bool :=
  match get k d with Some _ => true | None => false end.

(** [d[k]] *)
Definition getitem {V : Type} (k : string) (d : dict V) : result V :=
  match get k d with
  | Some v => Ok v
  | None => Raise (KeyError k)
  end.

(** [d[k] = v]: an existing key keeps its position, a new one goes last. *)
Fixpoint setitem {V : Type} (k : string) (v : V) (d : dict V) : dict V :=
  match d with
  | [] => [(k, v)]
  | (k', v') :: d' =>
      if String.eqb k k' then (k', v) :: d' else (k', v') :: setitem k v d'
  end.

Definition keys {V : Type} (d : dict V) : list string := map fst d.
Definition values {V : Type} (d : dict V) : list V := map snd d.

(** [sum(xs)]: left to right from 0. *)
Definition sum (xs : list Q) : Q := fold_left Qplus xs 0.

(** *** str, continued *)

(** [c.isspace()] on ASCII: tab to carriage return, the four separators
    28-31 and the space. *)
Definition isspace (c : ascii) : bool :=
  let n := nat_of_ascii c in
  ((9 <=? n)%nat && (n <=? 13)%nat) || ((28 <=? n)%nat && (n <=? 32)%nat).

Fixpoint lstrip (s : string) : string :=
  match s with
  | EmptyString => EmptyString
  | String c s' => if isspace c then lstrip s' else s
  end.

Fixpoint rstrip (s : string) : string :=
  match s with
  | EmptyString => EmptyString
  | String c s' =>
      match rstrip s' with
      | EmptyString => if isspace c then EmptyString else String c EmptyString
      | r => String c r
      end
  end.

(** [s.strip()] *)
Definition strip (s : string) : string := rstrip (lstrip s).

(** [str(n)] of an int, as a [KeyError] shows an int key. *)
Definition repr_int (n : Z) : string := NilZero.string_of_int (Z.to_int n).

(** [d[k]] on a dict keyed by ints. *)
Fixpoint getitem_int {V : Type} (k : Z) (d : list (Z * V)) : result V :=
  match d with
  | [] => Raise (KeyError (repr_int k))
  | (k', v) :: d' => if (k =? k')%Z then Ok v else getitem_int k d'
  end.

End Py.

Notation "x <- m ;; k" := (Py.bind m (fun x => k))
  (at level 61, m at next level, right associativity).

Open Scope string_scope.

(** ** Loops shared by the three [apply_rebalance] bodies *)

(** [for asset, shift in rule.items(): new[asset] += shift * intensity]
    (v2.1 and v2.4-embedding): a missing asset raises [KeyError]. *)
Fixpoint shift_weights (rule : Py.dict Q) (intensity : Q) (new : Py.dict Q)
  : Py.result (Py.dict Q) :=
  match rule with
  | [] => Py.Ok new
  | (asset, shift) :: rule' =>
      w <- Py.getitem asset new ;;
      shift_weights rule' intensity (Py.setitem asset (w + shift * intensity) new)
  end.

(** The same loop under [if asset in new_weights:] (v2.4-horizon). *)
Fixpoint shift_present_weights (rule : Py.dict Q) (intensity : Q) (new : Py.dict Q)
  : Py.dict Q :=
  match rule with
  | [] => new
  | (asset, change) :: rule' =>
      match Py.get asset new with
      | Some w =>
          shift_present_weights rule' intensity
            (Py.setitem asset (w + change * intensity) new)
      | None => shift_present_weights rule' intensity new
      end
  end.

(** [for k in new: new[k] = round(new[k] / total * 100, 2)] *)
Fixpoint normalize_each (total : Q) (new : Py.dict Q) : Py.result (Py.dict Q) :=
  match new with
  | [] => Py.Ok []
  | (k, w) :: rest =>
      q <- Py.div w total ;;
      rest' <- normalize_each total rest ;;
      Py.Ok ((k, Py.round2 (q * 100)) :: rest')
  end.

(** [total = sum(new.values())] followed by the loop above. *)
Definition renormalize (new : Py.dict Q) : Py.result (Py.dict Q) :=
  let total := Py.sum (Py.values new) in
  normalize_each total new.

(** The entry the renormalization loop writes for [(k, w)]. *)
Definition renorm_entry (total : Q) (e : string * Q) : string * Q :=
  (fst e, Py.round2 (snd e / total * 100)).

(** [len(d)] as a number. *)
Definition count (d : Py.dict Q) : Q := inject_Z (Z.of_nat (List.length d)).

(** Two portfolios with the same assets, in the same order, and numerically
    equal weights: they compare equal under Python's [==]. *)
Definition same_portfolio (d1 d2 : Py.dict Q) : Prop :=
  Forall2 (fun e1 e2 => fst e1 = fst e2 /\ snd e1 == snd e2) d1 d2.

(** A weight with at most two decimal places. *)
Definition two_decimals (w : Q) : Prop := exists n : Z, w == n # 100.

(** Every asset a rule names is a key of the portfolio. *)
Definition covers (d : Py.dict Q) (rule : Py.dict Q) : bool :=
  forallb (fun e => Py.mem (fst e) d) rule.

(** The five asset classes of the input forms. *)
Definition asset_classes : list string :=
  ["Equities"; "Bonds"; "ETFs"; "Crypto"; "Commodities"].

(** A portfolio that holds a weight for each of the five asset classes. *)
Definition has_asset_classes (d : Py.dict Q) : bool :=
  forallb (fun a => Py.mem a d) asset_classes.

(** What one run of an analysis script shows. *)
Inductive outcome : Type :=
| Rejected (total_alloc : Z)
| Idle
| Stopped (event_type theme : string) (impact : Q)
| Rebalanced (event_type theme : string) (impact : Q) (updated : Py.dict Q)
| Crashed (e : Py.exn).

(** The dict literal both lexical scripts build from the five number inputs. *)
Definition portfolio_of (equity_w bond_w etf_w crypto_w cmdty_w : Q) : Py.dict Q :=
  [ ("Equities", equity_w); ("Bonds", bond_w); ("ETFs", etf_w);
    ("Crypto", crypto_w); ("Commodities", cmdty_w) ].

(** First theme, in table order, one of whose keywords occurs in [text]. *)
Fixpoint first_theme {K : Type} (themes : list (K * list string)) (text : string)
  : option K :=
  match themes with
  | [] => None
  | (key, words) :: rest =>
      if Py.any_in words text then Some key else first_theme rest text
  end.

(** Some keyword of some theme of the table occurs in the text. *)
Definition hits (themes : Py.dict (list string)) (text : string) : Prop :=
  exists key words w, In (key, words) themes /\ In w words /\ Py.contains w text = true.

(** ** v2.1: lexical demo *)

Module V21.

Definition macro_themes : Py.dict (list string) :=
  [ ("interest_rate", ["interest"; "inflation"; "cpi"; "ppi"; "fed"; "ecb"; "rate hike"; "yields"]);
    ("energy", ["oil"; "gas"; "opec"; "energy supply"; "pipeline"; "crude"]);
    ("tech", ["ai"; "technology"; "chip"; "semiconductor"; "software"]);
    ("geopolitical", ["conflict"; "war"; "border"; "sanction"; "missile"; "tension"]);
    ("fiscal", ["stimulus"; "government spending"; "budget"; "subsidy"]);
    ("currency", ["forex"; "currency"; "yen"; "yuan"; "liquidity"; "dollar index"]);
    ("labor", ["unemployment"; "jobs"; "wage"; "labor market"]);
    ("crypto", ["bitcoin"; "crypto"; "ethereum"; "token"; "blockchain"]);
    ("political_shock", ["assassination"; "prime minister"; "president"; "resignation"; "leader death"]) ].

Definition micro_themes : Py.dict (list string) :=
  [ ("earnings", ["earnings"; "quarterly"; "revenue"; "profit"; "guidance"]);
    ("company_specific", ["launch"; "ceo"; "merger"; "acquisition"; "company"]);
    ("sector_only", ["retail sales"; "chip demand"; "housing data"]) ].

Definition irrelevant_keywords : list string :=
  [ "accident"; "celebrity"; "movie"; "festival"; "sports"; "award"; "weather"; "crime" ].

Definition severity_weights : Py.dict Q :=
  [ ("crisis", 30); ("war", 30); ("sanction", 25); ("default", 30);
    ("surge", 20); ("collapse", 20); ("emergency", 20);
    ("hike", 15); ("cut", 15); ("inflation", 15);
    ("mild", 5); ("slight", 5) ].

Definition classify_news (text : string) : string * string :=
  let text := Py.lower text in
  if Py.any_in irrelevant_keywords text then ("irrelevant", "Not market-affecting")
  else match first_theme micro_themes text with
       | Some key => ("micro", key)
       | None =>
           match first_theme macro_themes text with
           | Some key => ("macro", key)
           | None => ("irrelevant", "No macro/micro signals detected")
           end
       end.

Definition compute_impact_score (text : string) : Q :=
  let text := Py.lower text in
  let score :=
    fold_left (fun score '(word, pts) =>
                 if Py.contains word text then score + pts else score)
              severity_weights 0 in
  Py.min score 100.

Definition macro_rebalance_rules : Py.dict (Py.dict Q) :=
  [ ("interest_rate", [("Equities", -10); ("Bonds", 10)]);
    ("energy", [("Commodities", 15); ("Equities", -5)]);
    ("tech", [("Equities", 10)]);
    ("geopolitical", [("Bonds", 10); ("Commodities", 5); ("Equities", -10)]);
    ("fiscal", [("Equities", 10)]);
    ("currency", [("Bonds", 5); ("Crypto", -10)]);
    ("labor", [("Equities", -5); ("Bonds", 5)]);
    ("crypto", [("Crypto", 15)]);
    ("political_shock", [("Bonds", 10); ("Equities", -10)]) ].

Definition apply_rebalance (base : Py.dict Q) (theme : string) (intensity_factor : Q)
  : Py.result (Py.dict Q) :=
  let new := base in
  match Py.get theme macro_rebalance_rules with
  | None => Py.Ok new
  | Some rule =>
      new <- shift_weights rule intensity_factor new ;;
      renormalize new
  end.

(** The weights [apply_rebalance] holds when its rule loop is over, before
    it renormalizes (the input itself for a theme without a rule). *)
Definition post_rule_weights (base : Py.dict Q) (theme : string) (intensity_factor : Q)
  : Py.result (Py.dict Q) :=
  match Py.get theme macro_rebalance_rules with
  | None => Py.Ok base
  | Some rule => shift_weights rule intensity_factor base
  end.

(** The script: the allocation check, then the analysis behind the button. *)
Definition main (equity_w bond_w etf_w crypto_w cmdty_w : Z)
    (headline : string) (analyze_button : bool) : outcome :=
  let initial_weights :=
    portfolio_of (inject_Z equity_w) (inject_Z bond_w) (inject_Z etf_w)
                 (inject_Z crypto_w) (inject_Z cmdty_w) in
  let total_alloc := (equity_w + bond_w + etf_w + crypto_w + cmdty_w)%Z in
  if negb (total_alloc =? 100)%Z then Rejected total_alloc
  else if negb (analyze_button && Py.truthy headline) then Idle
  else
    let '(event_type, theme) := classify_news headline in
    let impact := compute_impact_score headline in
    if String.eqb event_type "irrelevant" then Stopped event_type theme impact
    else if String.eqb event_type "micro" then Stopped event_type theme impact
    else if Py.ltb impact 25 then Stopped event_type theme impact
    else
      let intensity_factor := impact / 100 in
      match apply_rebalance initial_weights theme intensity_factor with
      | Py.Ok updated_port => Rebalanced event_type theme impact updated_port
      | Py.Raise e => Crashed e
      end.

End V21.

(** ** v2.4: embedding-powered engine

    The embedding call and the cosine ranking are the injected collaborator;
    what is modelled starts from the scores [classify_headline] returns. *)

Module V24E.

Definition compute_sentiment (headline : string) : Z :=
  let pos_words := ["rallies"; "optimism"; "growth"; "record high"] in
  let neg_words := ["crisis"; "collapse"; "fell"; "war"; "attack"; "assassinated"] in
  let hits words :=
    Z.of_nat (List.length (filter (fun w => Py.contains w (Py.lower headline)) words)) in
  let pos_score := hits pos_words in
  let neg_score := hits neg_words in
  (pos_score - neg_score)%Z.

Definition compute_severity (primary_score secondary_score : Q) (sentiment : Z)
    (horizon_years : Q) : Q :=
  let severity := primary_score * 100 in
  let severity := if Py.gtb secondary_score 0 then severity * 1.15 else severity in
  let severity := if (sentiment <? 0)%Z then severity * 1.2 else severity in
  let severity :=
    if Py.gtb horizon_years 3 then severity * 0.75
    else if Py.ltb horizon_years 1 then severity * 1.15
    else severity in
  Py.min 100 (Py.max 20 severity).

Definition horizon_threshold (severity horizon_years : Q) : bool :=
  if Py.leb horizon_years 1 then Py.geb severity 20
  else if Py.leb horizon_years 3 then Py.geb severity 40
  else Py.geb severity 70.

Definition rebalance_rules : Py.dict (Py.dict Q) :=
  [ ("interest_rates", [("Equities", -10); ("Bonds", 15)]);
    ("energy", [("Commodities", 15)]);
    ("tech", [("Equities", 12)]);
    ("geopolitical", [("Bonds", 10); ("Commodities", 8); ("Equities", -10)]);
    ("fiscal", [("Equities", 10)]);
    ("currency_fx", [("Crypto", -10); ("Bonds", 5)]);
    ("labor", [("Equities", -5); ("Bonds", 5)]);
    ("crypto", [("Crypto", 15)]);
    ("political_shock", [("Bonds", 12); ("Equities", -12)]);
    ("commodities", [("Commodities", 15)]) ].

Definition apply_rebalance (weights : Py.dict Q) (theme : string) (severity : Q)
  : Py.result (Py.dict Q) :=
  let new := weights in
  let intensity := severity / 100 in
  new <- match Py.get theme rebalance_rules with
         | Some rule => shift_weights rule intensity new
         | None => Py.Ok new
         end ;;
  renormalize new.

(** The weights [apply_rebalance] holds when its rule loop is over. *)
Definition post_rule_weights (weights : Py.dict Q) (theme : string) (severity : Q)
  : Py.result (Py.dict Q) :=
  match Py.get theme rebalance_rules with
  | Some rule => shift_weights rule (severity / 100) weights
  | None => Py.Ok weights
  end.

Definition THEMES : Py.dict string :=
  [ ("interest_rates", "Monetary policy, inflation, CPI, PPI, rate decisions, yields");
    ("energy", "Oil, gas, commodities, OPEC, supply shocks");
    ("tech", "Technology sector, AI, chips, semiconductors");
    ("geopolitical", "Conflicts, wars, sanctions, cross-border tension");
    ("fiscal", "Government spending, budgets, stimulus, deficits");
    ("currency_fx", "Dollar index, forex, yen, yuan movements");
    ("labor", "Jobs, unemployment, wages, labor conditions");
    ("crypto", "Bitcoin, Ethereum, crypto markets, digital assets");
    ("political_shock", "Assassinations, coups, leadership changes");
    ("commodities", "Gold, metals, silver, precious metals") ].

(** [max(sims, key=sims.get)] over a non-empty dict, with the value found:
    the first entry of maximal value. *)
Fixpoint first_max (best : string * Q) (rest : Py.dict Q) : string * Q :=
  match rest with
  | [] => best
  | (t, val) :: rest' =>
      first_max (if Py.gtb val (snd best) then (t, val) else best) rest'
  end.

(** The loop that looks for a secondary theme: the last qualifying entry
    stays. *)
Definition pick_secondary (primary : string) (primary_score : Q) (sims : Py.dict Q)
  : option string * Q :=
  fold_left (fun acc '(t, val) =>
               if negb (String.eqb t primary) && Py.gtb val (0.75 * primary_score)
               then (Some t, val) else acc)
            sims (None, 0).

(** [classify_headline], the embedding calls taken out: [similarity t] is
    [cosine_sim(get_embedding(headline), theme_embeddings[t])].  [None] is
    the [ValueError] of [max] on an empty dict. *)
Definition classify_headline (similarity : string -> Q)
  : option (string * Q * option string * Q) :=
  let sims := map (fun e => (fst e, similarity (fst e))) THEMES in
  match sims with
  | [] => None
  | first :: rest =>
      let '(primary, primary_score) := first_max first rest in
      let '(secondary, secondary_score) := pick_secondary primary primary_score sims in
      Some (primary, primary_score, secondary, secondary_score)
  end.

(** [{k: round(v/100 * capital, 2) for k, v in weights.items()}] *)
Definition dollar_values (capital : Q) (weights : Py.dict Q) : Py.dict Q :=
  map (fun e => (fst e, Py.round2 (snd e / 100 * capital))) weights.

(** What the analysis section writes before the gate. *)
Record analysis : Type := mk_analysis {
  primary : string;
  secondary : option string;
  p_score : Q;
  sentiment : Z;
  severity : Q
}.

Inductive report : Type :=
| WeightsRejected
| NotAnalyzed
| ValueError
| BelowThreshold (a : analysis)
| Suggested (a : analysis) (new_weights current_vals new_vals : Py.dict Q)
| Failed (e : Py.exn).

(** The script from the sidebar check on (the API key lookup is left out). *)
Definition main (capital : Q) (equity_w bond_w etf_w crypto_w cmdty_w : Z)
    (horizon_years : Q) (headline : string) (analyze : bool)
    (similarity : string -> Q) : report :=
  let weights :=
    portfolio_of (inject_Z equity_w) (inject_Z bond_w) (inject_Z etf_w)
                 (inject_Z crypto_w) (inject_Z cmdty_w) in
  if negb (equity_w + bond_w + etf_w + crypto_w + cmdty_w =? 100)%Z then WeightsRejected
  else if negb (analyze && Py.truthy (Py.strip headline)) then NotAnalyzed
  else
    match classify_headline similarity with
    | None => ValueError
    | Some (primary, p_score, secondary, s_score) =>
        let sentiment := compute_sentiment headline in
        let severity := compute_severity p_score s_score sentiment horizon_years in
        let a := mk_analysis primary secondary p_score sentiment severity in
        if negb (horizon_threshold severity horizon_years) then BelowThreshold a
        else
          match apply_rebalance weights primary severity with
          | Py.Ok new_weights =>
              Suggested a new_weights (dollar_values capital weights)
                        (dollar_values capital new_weights)
          | Py.Raise e => Failed e
          end
    end.

End V24E.

(** ** v2.4: horizon-aware lexical engine *)

Module V24H.

Definition macro_themes : Py.dict (list string) :=
  [ ("interest_rate", ["interest"; "inflation"; "cpi"; "ppi"; "fed"; "ecb"; "rate hike"; "yields"]);
    ("energy", ["oil"; "gas"; "opec"; "energy supply"; "pipeline"; "crude"]);
    ("tech", ["ai"; "technology"; "chip"; "semiconductor"; "software"]);
    ("geopolitical", ["conflict"; "war"; "border"; "sanction"; "missile"; "tension"]);
    ("fiscal", ["stimulus"; "government spending"; "budget"; "subsidy"]);
    ("currency", ["forex"; "currency"; "yen"; "yuan"; "dollar index"]);
    ("labor", ["unemployment"; "jobs"; "wage"; "labor market"]);
    ("crypto", ["bitcoin"; "crypto"; "ethereum"; "token"; "blockchain"]);
    ("political_shock", ["assassination"; "prime minister"; "president"; "resignation"; "leader death"]) ].

Definition micro_themes : Py.dict (list string) :=
  [ ("earnings", ["earnings"; "quarterly"; "revenue"; "profit"; "guidance"]);
    ("company_specific", ["launch"; "ceo"; "merger"; "acquisition"; "company"]);
    ("sector_only", ["retail sales"; "chip demand"; "housing data"]) ].

Definition irrelevant_keywords : list string :=
  [ "accident"; "celebrity"; "movie"; "festival"; "sports"; "award"; "weather"; "crime" ].

Definition severity_weights : Py.dict Q :=
  [ ("crisis", 1.5); ("war", 1.5); ("sanction", 1.3); ("default", 1.5);
    ("surge", 1.2); ("collapse", 1.2); ("emergency", 1.2);
    ("hike", 1.1); ("cut", 1.1); ("inflation", 1.1);
    ("mild", 1.0); ("slight", 1.0) ].

Definition classify_news (text : string) : string * string :=
  let text_lower := Py.lower text in
  if Py.any_in irrelevant_keywords text_lower then ("irrelevant", "Local / Irrelevant News")
  else match first_theme micro_themes text_lower with
       | Some key => ("micro", key)
       | None =>
           match first_theme macro_themes text_lower with
           | Some key => ("macro", key)
           | None => ("irrelevant", "No macro/micro signals detected")
           end
       end.

Definition compute_impact_score (text : string) : Q :=
  let score :=
    fold_left (fun score '(word, mult) =>
                 if Py.contains word (Py.lower text)
                 then score + 20 * (mult - 1 + 1) else score)
              severity_weights 0 in
  Py.min (Py.max score 20) 100.

Definition horizon_threshold (event_score horizon_years : Q) : bool :=
  if Py.leb horizon_years 1 then Py.geb event_score 20
  else if Py.leb horizon_years 3 then Py.geb event_score 40
  else Py.geb event_score 70.

Definition macro_rebalance_rules : Py.dict (Py.dict Q) :=
  [ ("interest_rate", [("Equities", -10); ("Bonds", 10)]);
    ("energy", [("Commodities", 15); ("Equities", -5)]);
    ("tech", [("Equities", 10)]);
    ("geopolitical", [("Bonds", 10); ("Commodities", 5); ("Equities", -10)]);
    ("fiscal", [("Equities", 10)]);
    ("currency", [("Bonds", 5); ("Crypto", -10)]);
    ("labor", [("Equities", -5); ("Bonds", 5)]);
    ("crypto", [("Crypto", 15)]);
    ("political_shock", [("Bonds", 10); ("Equities", -10)]) ].

Definition apply_rebalance (base_weights : Py.dict Q) (theme : string)
    (intensity_factor : Q) : Py.result (Py.dict Q) :=
  let new_weights := base_weights in
  match Py.get theme macro_rebalance_rules with
  | None => Py.Ok new_weights
  | Some rule =>
      let new_weights := shift_present_weights rule intensity_factor new_weights in
      renormalize new_weights
  end.

(** The weights [apply_rebalance] holds when its rule loop is over. *)
Definition post_rule_weights (base_weights : Py.dict Q) (theme : string)
    (intensity_factor : Q) : Py.dict Q :=
  match Py.get theme macro_rebalance_rules with
  | None => base_weights
  | Some rule => shift_present_weights rule intensity_factor base_weights
  end.

(** The script; a micro event only shows a note and goes on to the gate. *)
Definition main (equity_w bond_w etf_w crypto_w cmdty_w : Z) (horizon_years : Q)
    (headline : string) (analyze_button : bool) : outcome :=
  let initial_weights :=
    portfolio_of (inject_Z equity_w) (inject_Z bond_w) (inject_Z etf_w)
                 (inject_Z crypto_w) (inject_Z cmdty_w) in
  let total_alloc := (equity_w + bond_w + etf_w + crypto_w + cmdty_w)%Z in
  if negb (total_alloc =? 100)%Z then Rejected total_alloc
  else if negb (analyze_button && Py.truthy headline) then Idle
  else
    let '(event_type, theme) := classify_news headline in
    let impact_score := compute_impact_score headline in
    if String.eqb event_type "irrelevant" then Stopped event_type theme impact_score
    else if negb (horizon_threshold impact_score horizon_years)
    then Stopped event_type theme impact_score
    else
      let intensity_factor := impact_score / 100 in
      match apply_rebalance initial_weights theme intensity_factor with
      | Py.Ok updated_portfolio =>
          Rebalanced event_type theme impact_score updated_portfolio
      | Py.Raise e => Crashed e
      end.

End V24H.

(** ** v0.1: equal-weight demo *)

Module V01.

Definition keywords : list (Z * list string) :=
  [ (0, ["inflation"; "prices"; "cpi"; "pmi"]);
    (1, ["oil"; "energy"; "gas"; "opec"]);
    (2, ["war"; "conflict"; "geopolitics"; "sanctions"]);
    (3, ["tech"; "ai"; "chips"; "innovation"]);
    (4, ["dollar"; "currency"; "forex"; "fed"]);
    (5, ["recession"; "slowdown"; "unemployment"]);
    (6, ["crypto"; "bitcoin"; "blockchain"]);
    (7, ["rates"; "hikes"; "treasury"; "yields"]) ]%Z.

(** [randint_0_8] is what [np.random.randint(0, 8)] returns when it is
    called: a draw from the global generator, in 0..7. *)
Definition simulate_macro_cluster (randint_0_8 : Z) (text : string) : Z :=
  let text := Py.lower text in
  match first_theme keywords text with
  | Some cluster_id => cluster_id
  | None => randint_0_8
  end.

Definition sensitivity : Py.dict (list Z) :=
  [ ("SPY",        [-1; -1; -1;  1; -1; -1;  0; -1]);
    ("IEF",        [-1;  0;  1; -1;  1;  1;  0;  1]);
    ("BTC",        [ 0; -1; -1;  1; -1; -1; -1; -1]);
    ("QQQ",        [-1;  0; -1;  1; -1; -1;  0; -1]);
    ("SPY_Option", [ 1; -1; -1;  1; -1; -1;  1; -1]);
    ("ES",         [-1; -1; -1;  1; -1; -1;  0; -1]);
    ("GLD",        [ 1;  1;  1; -1;  1;  1;  0;  1]) ]%Z.

(** A row of the portfolio frame. *)
Record row : Type := mk_row { Asset : string; Weight : Q; Allocation : Q }.

Definition create_equal_weight_portfolio (assets : list string) (capital : Q)
  : Py.result (list row) :=
  let n := inject_Z (Z.of_nat (List.length assets)) in
  weight <- Py.div 1 n ;;
  Py.Ok (map (fun a => mk_row a weight (capital * weight)) assets).

(** The [iterrows] loop: each known asset moves by its direction times 0.03. *)
Fixpoint shift_rows (cluster_id : Z) (df : list row) : Py.result (list row) :=
  match df with
  | [] => Py.Ok []
  | r :: rest =>
      r' <- match Py.get (Asset r) sensitivity with
            | Some directions =>
                direction <- Py.index directions cluster_id ;;
                let effect_strength := 0.03 in
                Py.Ok (mk_row (Asset r)
                              (Weight r + inject_Z direction * effect_strength)
                              (Allocation r))
            | None => Py.Ok r
            end ;;
      rest' <- shift_rows cluster_id rest ;;
      Py.Ok (r' :: rest')
  end.

(** [df["Weight"].clip(lower=0)] *)
Definition clip_lower_0 (w : Q) : Q := if Py.ltb w 0 then 0 else w.

(** Column division does not raise: a zero sum fills the column with NaN,
    which is the [None] frame here. *)
Definition generate_suggested_portfolio (capital : Q) (cluster_id : Z) (df : list row)
  : Py.result (option (list row)) :=
  df <- shift_rows cluster_id df ;;
  let df := map (fun r => mk_row (Asset r) (clip_lower_0 (Weight r)) (Allocation r)) df in
  let total := Py.sum (map Weight df) in
  if Qeq_bool total 0 then Py.Ok None
  else
    let df := map (fun r => mk_row (Asset r) (Weight r / total) (Allocation r)) df in
    let df := map (fun r => mk_row (Asset r) (Weight r) (Weight r * capital)) df in
    Py.Ok (Some df).

Definition asset_mapping : Py.dict string :=
  [ ("Equities (SPY)", "SPY");
    ("Bonds (IEF)", "IEF");
    ("Crypto (BTC)", "BTC");
    ("ETF (QQQ)", "QQQ");
    ("Options (SPY-Option)", "SPY_Option");
    ("Futures (ES)", "ES");
    ("Commodities (GLD)", "GLD") ].

(** [[asset_mapping[a] for a in allowed_assets]] *)
Fixpoint instruments (allowed_assets : list string) : Py.result (list string) :=
  match allowed_assets with
  | [] => Py.Ok []
  | a :: rest =>
      i <- Py.getitem a asset_mapping ;;
      rest' <- instruments rest ;;
      Py.Ok (i :: rest')
  end.

Definition cluster_names : list (Z * string) :=
  [ (0, "Inflation / Price Pressure");
    (1, "Energy Supply / Oil Shock");
    (2, "Geopolitical Tension");
    (3, "Tech Growth / Innovation");
    (4, "USD / Currency Shifts");
    (5, "Economic Slowdown");
    (6, "Crypto Market Pressure");
    (7, "Interest Rate / Yield Pressure") ]%Z.

Inductive page : Type :=
| Broken (e : Py.exn)
| AwaitingHeadline (current_portfolio : list row)
| Interpreted (current_portfolio : list row) (theme : string) (cluster_id : Z)
              (suggested : option (list row)).

(** The script: the equal-weight frame is built before the headline is
    looked at. *)
Definition main (capital : Q) (allowed_assets : list string) (headline : string)
    (randint_0_8 : Z) : page :=
  match (instruments <- instruments allowed_assets ;;
         create_equal_weight_portfolio instruments capital) with
  | Py.Raise e => Broken e
  | Py.Ok current_portfolio =>
      if Py.truthy headline then
        let cluster_id := simulate_macro_cluster randint_0_8 headline in
        match (theme <- Py.getitem_int cluster_id cluster_names ;;
               suggested <- generate_suggested_portfolio capital cluster_id
                                                         current_portfolio ;;
               Py.Ok (theme, suggested)) with
        | Py.Ok (theme, suggested) =>
            Interpreted current_portfolio theme cluster_id suggested
        | Py.Raise e => Broken e
        end
      else AwaitingHeadline current_portfolio
  end.

End V01.

(** ** Facts about the Python fragment *)

Section Numbers.

Lemma round_half_even_near (x : Q) :
  Qabs (inject_Z (Py.round_half_even x) - x) <= 1 # 2.
Proof.
  unfold Py.round_half_even.
  pose proof (Qfloor_le x) as Hlo.
  pose proof (Qlt_floor x) as Hhi.
  rewrite inject_Z_plus in Hhi.
  destruct (Qcompare (x - inject_Z (Qfloor x)) (1 # 2)) eqn:E;
    [ apply Qeq_alt in E | apply Qlt_alt in E | apply Qgt_alt in E ];
    try destruct (Z.even (Qfloor x));
    rewrite ?inject_Z_plus; change (inject_Z 1) with 1 in *;
    generalize dependent (inject_Z (Qfloor x)); intros f Hlo Hhi E;
    apply Qabs_case; intros _; lra.
Qed.

Lemma round2_near (x : Q) : Qabs (Py.round2 x - x) <= 1 # 200.
Proof.
  pose proof (round_half_even_near (x * 100)) as H.
  assert (E : Py.round2 x == inject_Z (Py.round_half_even (x * 100)) * (1 # 100)).
  { unfold Py.round2. rewrite (Qmake_Qdiv _ 100). reflexivity. }
  rewrite E.
  generalize dependent (inject_Z (Py.round_half_even (x * 100))); intros n H _.
  apply Qabs_Qle_condition in H. apply Qabs_Qle_condition. lra.
Qed.

End Numbers.

Section Renormalization.

Lemma fold_left_Qplus_acc (xs : list Q) (a : Q) :
  fold_left Qplus xs a == a + fold_left Qplus xs 0.
Proof.
  revert a. induction xs as [|x xs IH]; intros a; simpl.
  - ring.
  - rewrite (IH (a + x)), (IH (0 + x)). ring.
Qed.

Lemma sum_cons (x : Q) (xs : list Q) : Py.sum (x :: xs) == x + Py.sum xs.
Proof.
  unfold Py.sum. simpl. rewrite fold_left_Qplus_acc. ring.
Qed.

Lemma sum_nil : Py.sum [] == 0.
Proof. reflexivity. Qed.

Lemma div_nonzero (a b : Q) : ~ b == 0 -> Py.div a b = Py.Ok (a / b).
Proof.
  intros H. unfold Py.div.
  destruct (Qeq_bool b 0) eqn:E; [apply Qeq_bool_iff in E; contradiction | reflexivity].
Qed.

Lemma div_zero (a b : Q) : b == 0 -> Py.div a b = Py.Raise Py.ZeroDivisionError.
Proof.
  intros H. unfold Py.div. apply Qeq_bool_iff in H. now rewrite H.
Qed.

Lemma normalize_each_ok (total : Q) (new : Py.dict Q) :
  ~ total == 0 -> normalize_each total new = Py.Ok (map (renorm_entry total) new).
Proof.
  intros H. induction new as [|[k w] rest IH]; simpl.
  - reflexivity.
  - rewrite (div_nonzero _ _ H). simpl. rewrite IH. reflexivity.
Qed.

Lemma normalize_each_zero (total : Q) (new : Py.dict Q) :
  total == 0 -> new <> [] ->
  normalize_each total new = Py.Raise Py.ZeroDivisionError.
Proof.
  intros H Hne. destruct new as [|[k w] rest]; [contradiction|].
  simpl. now rewrite (div_zero _ _ H).
Qed.

Lemma count_cons (e : string * Q) (new : Py.dict Q) : count (e :: new) == count new + 1.
Proof.
  unfold count. cbn [List.length]. rewrite Nat2Z.inj_succ, <- Z.add_1_r, inject_Z_plus.
  reflexivity.
Qed.

Lemma sum_scaled (total : Q) (new : Py.dict Q) :
  Py.sum (map (fun e => snd e / total * 100) new)
  == Py.sum (Py.values new) / total * 100.
Proof.
  induction new as [|[k w] rest IH]; cbn [map Py.values snd].
  - unfold Py.sum; simpl. unfold Qdiv. ring.
  - fold (Py.values rest). rewrite !sum_cons, IH. unfold Qdiv. ring.
Qed.

Lemma sum_rounded_near (total : Q) (new : Py.dict Q) :
  Qabs (Py.sum (Py.values (map (renorm_entry total) new))
        - Py.sum (map (fun e => snd e / total * 100) new))
  <= count new * (1 # 200).
Proof.
  induction new as [|[k w] rest IH].
  - cbn. discriminate.
  - cbn [map Py.values renorm_entry fst snd].
    fold (Py.values (map (renorm_entry total) rest)).
    rewrite !sum_cons, count_cons.
    pose proof (round2_near (w / total * 100)) as Hw.
    apply Qabs_Qle_condition in Hw. apply Qabs_Qle_condition in IH.
    apply Qabs_Qle_condition.
    generalize dependent (Py.round2 (w / total * 100)).
    generalize dependent (w / total * 100).
    generalize dependent (Py.sum (Py.values (map (renorm_entry total) rest))).
    generalize dependent (Py.sum (map (fun e => snd e / total * 100) rest)).
    generalize dependent (count rest).
    intros; lra.
Qed.

(** Renormalizing weights whose total is not zero: the loop completes, and
    the rounded weights add up to 100 within 0.005 per entry. *)
Lemma renormalize_sum (new : Py.dict Q) :
  ~ Py.sum (Py.values new) == 0 ->
  exists out,
    renormalize new = Py.Ok out /\
    out = map (renorm_entry (Py.sum (Py.values new))) new /\
    Qabs (Py.sum (Py.values out) - 100) <= count new * (1 # 200).
Proof.
  intros H. eexists. split; [|split; [reflexivity|]].
  - unfold renormalize. apply normalize_each_ok, H.
  - pose proof (sum_rounded_near (Py.sum (Py.values new)) new) as B.
    rewrite sum_scaled in B.
    assert (E : Py.sum (Py.values new) / Py.sum (Py.values new) * 100 == 100)
      by (field; exact H).
    rewrite E in B. exact B.
Qed.

End Renormalization.

Section Dicts.

Lemma forallb_pointwise {A : Type} (f g : A -> bool) (l : list A) :
  (forall x, f x = g x) -> forallb f l = forallb g l.
Proof.
  intros H. induction l as [|x l IH]; simpl; [reflexivity | now rewrite H, IH].
Qed.

Lemma same_portfolio_refl (d : Py.dict Q) : same_portfolio d d.
Proof.
  induction d as [|e d IH]; constructor; [split; reflexivity | exact IH].
Qed.

Lemma same_portfolio_trans (d1 d2 d3 : Py.dict Q) :
  same_portfolio d1 d2 -> same_portfolio d2 d3 -> same_portfolio d1 d3.
Proof.
  intros H12. revert d3. induction H12 as [|e1 e2 d1 d2 [Hk Hv] _ IH]; intros d3 H23.
  - exact H23.
  - inversion H23 as [|e2' e3 d2' d3' [Hk' Hv'] Hrest]; subst.
    constructor; [split; [congruence | now rewrite Hv] | now apply IH].
Qed.

Lemma same_portfolio_get (d1 d2 : Py.dict Q) (k : string) :
  same_portfolio d1 d2 ->
  match Py.get k d1, Py.get k d2 with
  | Some w1, Some w2 => w1 == w2
  | None, None => True
  | _, _ => False
  end.
Proof.
  induction 1 as [|[k1 w1] [k2 w2] d1 d2 [Hk Hv] _ IH]; simpl in *.
  - exact I.
  - subst k2. destruct (String.eqb k k1); [exact Hv | exact IH].
Qed.

Lemma same_portfolio_sum (d1 d2 : Py.dict Q) :
  same_portfolio d1 d2 -> Py.sum (Py.values d1) == Py.sum (Py.values d2).
Proof.
  induction 1 as [|[k1 w1] [k2 w2] d1 d2 [Hk Hv] _ IH]; cbn [Py.values map snd] in *.
  - reflexivity.
  - fold (Py.values d1). fold (Py.values d2). rewrite !sum_cons, IH.
    simpl in Hv. now rewrite Hv.
Qed.

Lemma same_portfolio_covers (d1 d2 rule : Py.dict Q) :
  same_portfolio d1 d2 -> covers d1 rule = covers d2 rule.
Proof.
  intros H. unfold covers. apply forallb_pointwise. intros [a s]. unfold Py.mem. simpl.
  pose proof (same_portfolio_get d1 d2 a H) as G.
  destruct (Py.get a d1), (Py.get a d2); tauto.
Qed.

Lemma same_portfolio_length (d1 d2 : Py.dict Q) :
  same_portfolio d1 d2 -> List.length d1 = List.length d2.
Proof. induction 1; simpl; congruence. Qed.

(** Writing a numerically equal weight back leaves the portfolio equal. *)
Lemma setitem_same (d : Py.dict Q) (k : string) (w v : Q) :
  Py.get k d = Some w -> v == w -> same_portfolio (Py.setitem k v d) d.
Proof.
  induction d as [|[k' w'] d IH]; simpl; [discriminate|].
  destruct (String.eqb k k').
  - intros [= ->] Hv. constructor; [split; [reflexivity | exact Hv]|].
    apply same_portfolio_refl.
  - intros Hg Hv. constructor; [split; reflexivity | now apply IH].
Qed.

Lemma setitem_length (d : Py.dict Q) (k : string) (w v : Q) :
  Py.get k d = Some w -> List.length (Py.setitem k v d) = List.length d.
Proof.
  induction d as [|[k' w'] d IH]; simpl; [discriminate|].
  destruct (String.eqb k k'); simpl; [reflexivity|]. intros Hg. now rewrite IH.
Qed.

Lemma setitem_mem (d : Py.dict Q) (k a : string) (w v : Q) :
  Py.get k d = Some w -> Py.mem a (Py.setitem k v d) = Py.mem a d.
Proof.
  unfold Py.mem.
  induction d as [|[k' w'] d IH]; simpl; [discriminate|].
  destruct (String.eqb k k') eqn:E; simpl.
  - intros _. destruct (String.eqb a k'); reflexivity.
  - intros Hg. destruct (String.eqb a k'); [reflexivity | now apply IH].
Qed.

Lemma setitem_covers (d rule : Py.dict Q) (k : string) (w v : Q) :
  Py.get k d = Some w -> covers (Py.setitem k v d) rule = covers d rule.
Proof.
  intros Hg. unfold covers. apply forallb_pointwise. intros e. now apply setitem_mem with w.
Qed.

End Dicts.

Section RuleLoops.

(** The unguarded loop completes exactly on portfolios holding every asset
    of the rule, and keeps the number of entries. *)
Lemma shift_weights_covers (rule : Py.dict Q) (intensity : Q) (new : Py.dict Q) :
  covers new rule = true ->
  exists new', shift_weights rule intensity new = Py.Ok new' /\
               List.length new' = List.length new.
Proof.
  revert new. induction rule as [|[asset shift] rule IH]; intros new Hc; simpl.
  - eauto.
  - simpl in Hc. apply andb_prop in Hc as [Hm Hc].
    unfold Py.getitem, Py.mem in *. destruct (Py.get asset new) as [w|] eqn:G; [|discriminate].
    simpl.
    destruct (IH (Py.setitem asset (w + shift * intensity) new)) as (new' & E & L).
    { now rewrite (setitem_covers _ _ _ w). }
    exists new'. split; [exact E|]. rewrite L. now apply setitem_length with w.
Qed.

Lemma shift_weights_length (rule : Py.dict Q) (intensity : Q) (new new' : Py.dict Q) :
  shift_weights rule intensity new = Py.Ok new' -> List.length new' = List.length new.
Proof.
  revert new. induction rule as [|[asset shift] rule IH]; intros new; simpl.
  - now intros [= ->].
  - unfold Py.getitem. destruct (Py.get asset new) as [w|] eqn:G; simpl; [|discriminate].
    intros E. apply IH in E. rewrite E. now apply setitem_length with w.
Qed.

Lemma shift_present_weights_length (rule : Py.dict Q) (intensity : Q) (new : Py.dict Q) :
  List.length (shift_present_weights rule intensity new) = List.length new.
Proof.
  revert new. induction rule as [|[asset change] rule IH]; intros new; simpl.
  - reflexivity.
  - destruct (Py.get asset new) as [w|] eqn:G; [|apply IH].
    rewrite IH. now apply setitem_length with w.
Qed.

(** With intensity 0 both loops leave every weight numerically unchanged. *)
Lemma shift_weights_zero (rule : Py.dict Q) (new : Py.dict Q) :
  covers new rule = true ->
  exists new', shift_weights rule 0 new = Py.Ok new' /\ same_portfolio new' new.
Proof.
  revert new. induction rule as [|[asset shift] rule IH]; intros new Hc; simpl.
  - eexists; split; [reflexivity | apply same_portfolio_refl].
  - simpl in Hc. apply andb_prop in Hc as [Hm Hc].
    unfold Py.getitem, Py.mem in *. destruct (Py.get asset new) as [w|] eqn:G; [|discriminate].
    simpl.
    assert (S : same_portfolio (Py.setitem asset (w + shift * 0) new) new)
      by (apply setitem_same with w; [exact G | ring]).
    destruct (IH (Py.setitem asset (w + shift * 0) new)) as (new' & E & S').
    { now rewrite (setitem_covers _ _ _ w). }
    exists new'. split; [exact E|]. now apply same_portfolio_trans with (2 := S).
Qed.

Lemma shift_present_weights_zero (rule : Py.dict Q) (new : Py.dict Q) :
  same_portfolio (shift_present_weights rule 0 new) new.
Proof.
  revert new. induction rule as [|[asset change] rule IH]; intros new; simpl.
  - apply same_portfolio_refl.
  - destruct (Py.get asset new) as [w|] eqn:G; [|apply IH].
    eapply same_portfolio_trans; [apply IH|].
    apply setitem_same with w; [exact G | ring].
Qed.

End RuleLoops.

(** ** The rebalance engine *)

Section Rebalance.

Lemma positive_nonzero (q : Q) : 0 < q -> ~ q == 0.
Proof. intros H E. rewrite E in H. now apply Qlt_irrefl in H. Qed.

Lemma count_length (d1 d2 : Py.dict Q) :
  List.length d1 = List.length d2 -> count d1 = count d2.
Proof. unfold count. now intros ->. Qed.

Lemma exact_sum_within (d : Py.dict Q) :
  Py.sum (Py.values d) == 100 ->
  Qabs (Py.sum (Py.values d) - 100) <= count d * (1 # 200).
Proof.
  intros H. rewrite H. unfold count.
  assert (0 <= inject_Z (Z.of_nat (List.length d))).
  { change 0 with (inject_Z 0). rewrite <- Zle_Qle. apply Nat2Z.is_nonneg. }
  setoid_replace (100 - 100) with 0 by ring. simpl. nra.
Qed.

(** C1 (amended). For a portfolio whose weights sum to 100 and whose
    post-rule total is positive, each of the three [apply_rebalance] bodies
    returns weights that sum to 100 within 0.005 per asset, that is within
    0.025 for the five asset classes. *)
Theorem rebalance_sum_within_half_cent_per_asset :
  forall (base : Py.dict Q) (theme : string) (intensity severity : Q),
    Py.sum (Py.values base) == 100 ->
    (forall new,
        V21.post_rule_weights base theme intensity = Py.Ok new ->
        0 < Py.sum (Py.values new) ->
        exists out,
          V21.apply_rebalance base theme intensity = Py.Ok out /\
          Qabs (Py.sum (Py.values out) - 100) <= count base * (1 # 200))
    /\
    (forall new,
        V24E.post_rule_weights base theme severity = Py.Ok new ->
        0 < Py.sum (Py.values new) ->
        exists out,
          V24E.apply_rebalance base theme severity = Py.Ok out /\
          Qabs (Py.sum (Py.values out) - 100) <= count base * (1 # 200))
    /\
    (0 < Py.sum (Py.values (V24H.post_rule_weights base theme intensity)) ->
     exists out,
       V24H.apply_rebalance base theme intensity = Py.Ok out /\
       Qabs (Py.sum (Py.values out) - 100) <= count base * (1 # 200)).
Proof.
  intros base theme intensity severity Hsum. repeat split.
  - unfold V21.post_rule_weights, V21.apply_rebalance.
    destruct (Py.get theme V21.macro_rebalance_rules) as [rule|]; intros new E Hpos.
    + rewrite E. simpl.
      destruct (renormalize_sum new (positive_nonzero _ Hpos)) as (out & R & _ & B).
      exists out. split; [exact R|].
      rewrite <- (count_length new base); [exact B|].
      now apply shift_weights_length in E.
    + exists base. split; [reflexivity | now apply exact_sum_within].
  - unfold V24E.post_rule_weights, V24E.apply_rebalance. intros new E Hpos.
    rewrite E. simpl.
    destruct (renormalize_sum new (positive_nonzero _ Hpos)) as (out & R & _ & B).
    exists out. split; [exact R|].
    rewrite <- (count_length new base); [exact B|].
    destruct (Py.get theme V24E.rebalance_rules).
    + now apply shift_weights_length in E.
    + now injection E as ->.
  - unfold V24H.post_rule_weights, V24H.apply_rebalance.
    destruct (Py.get theme V24H.macro_rebalance_rules) as [rule|]; intros Hpos.
    + destruct (renormalize_sum _ (positive_nonzero _ Hpos)) as (out & R & _ & B).
      exists out. split; [exact R|].
      rewrite <- (count_length (shift_present_weights rule intensity base) base);
        [exact B | apply shift_present_weights_length].
    + exists base. split; [reflexivity | now apply exact_sum_within].
Qed.

Lemma rebalance_sum_within_half_cent_per_asset_witness :
  (exists out,
      V21.apply_rebalance (portfolio_of 25 25 25 0 25) "crypto" (1 # 2) = Py.Ok out /\
      Qabs (Py.sum (Py.values out) - 100) <= count (portfolio_of 25 25 25 0 25) * (1 # 200))
  /\
  (exists out,
      V24E.apply_rebalance (portfolio_of 25 25 25 0 25) "crypto" 50 = Py.Ok out /\
      Qabs (Py.sum (Py.values out) - 100) <= count (portfolio_of 25 25 25 0 25) * (1 # 200))
  /\
  (exists out,
      V24H.apply_rebalance (portfolio_of 25 25 25 0 25) "crypto" (1 # 2) = Py.Ok out /\
      Qabs (Py.sum (Py.values out) - 100) <= count (portfolio_of 25 25 25 0 25) * (1 # 200)).
Proof.
  assert (H100 : Py.sum (Py.values (portfolio_of 25 25 25 0 25)) == 100) by reflexivity.
  destruct (rebalance_sum_within_half_cent_per_asset
              (portfolio_of 25 25 25 0 25) "crypto" (1 # 2) 50 H100) as (A & B & C).
  split; [|split].
  - eapply A; [reflexivity | reflexivity].
  - eapply B; [reflexivity | reflexivity].
  - apply C. reflexivity.
Defined.

(** C1 as stated fails: 25/25/25/0/25 under the crypto rule at intensity
    0.5 comes back as 23.26, 23.26, 23.26, 6.98, 23.26, which sums to 100.02. *)
Lemma rebalance_sum_off_by_two_cents :
  Py.sum (Py.values (portfolio_of 25 25 25 0 25)) == 100 /\
  V21.post_rule_weights (portfolio_of 25 25 25 0 25) "crypto" (1 # 2)
    = Py.Ok (portfolio_of 25 25 25 (0 + 15 * (1 # 2)) 25) /\
  0 < Py.sum (Py.values (portfolio_of 25 25 25 (0 + 15 * (1 # 2)) 25)) /\
  V21.apply_rebalance (portfolio_of 25 25 25 0 25) "crypto" (1 # 2)
    = Py.Ok (portfolio_of 23.26 23.26 23.26 6.98 23.26) /\
  Py.sum (Py.values (portfolio_of 23.26 23.26 23.26 6.98 23.26)) == 100.02 /\
  ~ Qabs (Py.sum (Py.values (portfolio_of 23.26 23.26 23.26 6.98 23.26)) - 100) <= 0.01.
Proof.
  repeat split; try reflexivity. vm_compute. intros H. now apply H.
Qed.

Lemma round_half_even_comp (x y : Q) :
  x == y -> Py.round_half_even x = Py.round_half_even y.
Proof.
  intros H. unfold Py.round_half_even.
  rewrite (Qfloor_comp x y H).
  assert (E : Qcompare (x - inject_Z (Qfloor y)) (1 # 2)
              = Qcompare (y - inject_Z (Qfloor y)) (1 # 2))
    by (apply Qcompare_comp; [now rewrite H | reflexivity]).
  now rewrite E.
Qed.

Lemma round_half_even_Z (n : Z) : Py.round_half_even (inject_Z n) = n.
Proof.
  unfold Py.round_half_even. rewrite Qfloor_Z.
  assert (E : Qcompare (inject_Z n - inject_Z n) (1 # 2) = Lt).
  { apply Qlt_alt. setoid_replace (inject_Z n - inject_Z n) with 0 by ring. reflexivity. }
  now rewrite E.
Qed.

(** Rounding to two places fixes a weight that has at most two. *)
Lemma round2_two_decimals (x : Q) : two_decimals x -> Py.round2 x == x.
Proof.
  intros [n H]. unfold Py.round2.
  assert (E : x * 100 == inject_Z n).
  { rewrite H. unfold Qeq. simpl. lia. }
  rewrite (round_half_even_comp _ _ E), round_half_even_Z. now symmetry.
Qed.

Lemma round2_comp (x y : Q) : x == y -> Py.round2 x = Py.round2 y.
Proof.
  intros H. unfold Py.round2.
  rewrite (round_half_even_comp (x * 100) (y * 100)); [reflexivity | now rewrite H].
Qed.

Lemma renormalize_fixes_two_decimals (new P : Py.dict Q) (total : Q) :
  same_portfolio new P -> total == 100 ->
  Forall (fun e => two_decimals (snd e)) P ->
  same_portfolio (map (renorm_entry total) new) P.
Proof.
  intros S Ht. induction S as [|[k' w'] [k w] new P [Hk Hv] _ IH]; intros HP.
  - constructor.
  - inversion HP as [|? ? Hw HP']; subst. simpl in *.
    constructor; [|now apply IH].
    split; [exact Hk|]. simpl.
    assert (E : w' / total * 100 == w) by (rewrite Hv, Ht; field).
    rewrite (round2_comp _ _ E). now apply round2_two_decimals.
Qed.

(** Each v2.1 rule only names asset classes of the input form. *)
Lemma V21_rules_covered (P : Py.dict Q) (theme : string) (rule : Py.dict Q) :
  has_asset_classes P = true ->
  Py.get theme V21.macro_rebalance_rules = Some rule ->
  covers P rule = true.
Proof.
  unfold has_asset_classes, asset_classes. cbn [forallb].
  intros H. repeat (apply andb_prop in H as [? H]).
  cbn [Py.get V21.macro_rebalance_rules].
  repeat (destruct (String.eqb theme _);
          [intros [= <-]; unfold covers; cbn [forallb fst];
           repeat (apply andb_true_intro; split); (assumption || reflexivity)|]).
  discriminate.
Qed.

(** C6 (amended). On a portfolio over the five asset classes whose weights
    sum to 100 and carry at most two decimal places, rebalancing with
    intensity 0 returns, for every theme, a portfolio equal to the input. *)
Theorem zero_intensity_keeps_two_decimal_weights :
  forall (P : Py.dict Q) (theme : string),
    has_asset_classes P = true ->
    Py.sum (Py.values P) == 100 ->
    Forall (fun e => two_decimals (snd e)) P ->
    (exists out, V21.apply_rebalance P theme 0 = Py.Ok out /\ same_portfolio out P) /\
    (exists out, V24H.apply_rebalance P theme 0 = Py.Ok out /\ same_portfolio out P).
Proof.
  intros P theme Hassets Hsum Hgrid. split.
  - unfold V21.apply_rebalance.
    destruct (Py.get theme V21.macro_rebalance_rules) as [rule|] eqn:G.
    + destruct (shift_weights_zero rule P (V21_rules_covered P theme rule Hassets G))
        as (new & E & S).
      rewrite E. simpl.
      assert (T : Py.sum (Py.values new) == 100)
        by (now rewrite (same_portfolio_sum new P S)).
      assert (NZ : ~ Py.sum (Py.values new) == 0) by (rewrite T; discriminate).
      destruct (renormalize_sum new NZ) as (out & R & -> & _).
      eexists. split; [exact R|]. now apply renormalize_fixes_two_decimals.
    + exists P. split; [reflexivity | apply same_portfolio_refl].
  - unfold V24H.apply_rebalance.
    destruct (Py.get theme V24H.macro_rebalance_rules) as [rule|] eqn:G.
    + pose proof (shift_present_weights_zero rule P) as S.
      assert (T : Py.sum (Py.values (shift_present_weights rule 0 P)) == 100)
        by (now rewrite (same_portfolio_sum _ P S)).
      assert (NZ : ~ Py.sum (Py.values (shift_present_weights rule 0 P)) == 0)
        by (rewrite T; discriminate).
      destruct (renormalize_sum _ NZ) as (out & R & -> & _).
      eexists. split; [exact R|]. now apply renormalize_fixes_two_decimals.
    + exists P. split; [reflexivity | apply same_portfolio_refl].
Qed.

Lemma two_decimals_of_hundredths (n : Z) : two_decimals (n # 100).
Proof. exists n. reflexivity. Qed.

Lemma zero_intensity_keeps_two_decimal_weights_witness :
  (exists out,
      V21.apply_rebalance (portfolio_of 33.33 33.33 33.34 0 0) "tech" 0 = Py.Ok out /\
      same_portfolio out (portfolio_of 33.33 33.33 33.34 0 0)) /\
  (exists out,
      V24H.apply_rebalance (portfolio_of 33.33 33.33 33.34 0 0) "tech" 0 = Py.Ok out /\
      same_portfolio out (portfolio_of 33.33 33.33 33.34 0 0)).
Proof.
  apply (zero_intensity_keeps_two_decimal_weights
           (portfolio_of 33.33 33.33 33.34 0 0) "tech").
  - reflexivity.
  - reflexivity.
  - repeat constructor; cbn [snd];
      first [ apply two_decimals_of_hundredths | exists 0%Z; reflexivity ].
Defined.

(** C6 as stated fails on weights with more than two decimal places:
    12.0625/87.9375/0/0/0 sums to 100 and comes back, at intensity 0 under
    the tech rule, as 12.06/87.94/0/0/0. *)
Lemma zero_intensity_rounds_finer_weights :
  Py.sum (Py.values (portfolio_of 12.0625 87.9375 0 0 0)) == 100 /\
  V21.apply_rebalance (portfolio_of 12.0625 87.9375 0 0 0) "tech" 0
    = Py.Ok (portfolio_of 12.06 87.94 0.00 0.00 0.00) /\
  V24H.apply_rebalance (portfolio_of 12.0625 87.9375 0 0 0) "tech" 0
    = Py.Ok (portfolio_of 12.06 87.94 0.00 0.00 0.00) /\
  ~ same_portfolio (portfolio_of 12.06 87.94 0.00 0.00 0.00)
                   (portfolio_of 12.0625 87.9375 0 0 0).
Proof.
  split; [reflexivity|]. split; [reflexivity|]. split; [reflexivity|].
  intros H. inversion H as [|? ? ? ? [_ Hv] _]; subst. discriminate Hv.
Qed.

(** C9 (amended). For a theme without a rule, the two lexical variants
    return the input weights untouched; the embedding variant applies no
    delta either but still renormalizes and rounds: it returns the weights
    scaled by 100 / total and rounded to two places when the total is not
    zero, and fails with a division by zero when it is. *)
Theorem ruleless_theme_copy_or_renormalize :
  forall (base : Py.dict Q) (theme : string) (intensity severity : Q),
    (Py.get theme V21.macro_rebalance_rules = None ->
     V21.apply_rebalance base theme intensity = Py.Ok base) /\
    (Py.get theme V24H.macro_rebalance_rules = None ->
     V24H.apply_rebalance base theme intensity = Py.Ok base) /\
    (Py.get theme V24E.rebalance_rules = None ->
     V24E.apply_rebalance base theme severity = renormalize base /\
     (~ Py.sum (Py.values base) == 0 ->
      renormalize base = Py.Ok (map (renorm_entry (Py.sum (Py.values base))) base)) /\
     (Py.sum (Py.values base) == 0 -> base <> [] ->
      renormalize base = Py.Raise Py.ZeroDivisionError)).
Proof.
  intros base theme intensity severity. split; [|split].
  - unfold V21.apply_rebalance. now intros ->.
  - unfold V24H.apply_rebalance. now intros ->.
  - intros G. split; [|split].
    + unfold V24E.apply_rebalance. now rewrite G.
    + intros NZ. now apply normalize_each_ok.
    + intros Z NE. now apply normalize_each_zero.
Qed.

Lemma ruleless_theme_copy_or_renormalize_witness :
  V21.apply_rebalance (portfolio_of 50 50 50 50 50) "weather" 1
    = Py.Ok (portfolio_of 50 50 50 50 50) /\
  V24H.apply_rebalance (portfolio_of 50 50 50 50 50) "weather" 1
    = Py.Ok (portfolio_of 50 50 50 50 50) /\
  V24E.apply_rebalance (portfolio_of 50 50 50 50 50) "weather" 100
    = Py.Ok (map (renorm_entry (Py.sum (Py.values (portfolio_of 50 50 50 50 50))))
                 (portfolio_of 50 50 50 50 50)).
Proof.
  destruct (ruleless_theme_copy_or_renormalize
              (portfolio_of 50 50 50 50 50) "weather" 1 100) as (A & B & C).
  split; [apply A; reflexivity|]. split; [apply B; reflexivity|].
  destruct (C eq_refl) as (E & R & _). rewrite E. apply R. discriminate.
Defined.

(** C9 as stated fails on the embedding variant: for the theme "weather",
    which has no rule, 50/50/50/50/50 comes back as 20/20/20/20/20, and
    12.0625/87.9375/0/0/0 as 12.06/87.94/0/0/0. *)
Lemma ruleless_theme_still_renormalized :
  Py.get "weather" V24E.rebalance_rules = None /\
  V24E.apply_rebalance (portfolio_of 50 50 50 50 50) "weather" 100
    = Py.Ok (portfolio_of 20.00 20.00 20.00 20.00 20.00) /\
  ~ same_portfolio (portfolio_of 20.00 20.00 20.00 20.00 20.00)
                   (portfolio_of 50 50 50 50 50) /\
  V24E.apply_rebalance (portfolio_of 12.0625 87.9375 0 0 0) "weather" 100
    = Py.Ok (portfolio_of 12.06 87.94 0.00 0.00 0.00) /\
  ~ same_portfolio (portfolio_of 12.06 87.94 0.00 0.00 0.00)
                   (portfolio_of 12.0625 87.9375 0 0 0).
Proof.
  split; [reflexivity|]. split; [reflexivity|]. split.
  { intros H. inversion H as [|? ? ? ? [_ Hv] _]; subst. discriminate Hv. }
  split; [reflexivity|].
  intros H. inversion H as [|? ? ? ? [_ Hv] _]; subst. discriminate Hv.
Qed.

(** C3 (amended). No variant has a DegenerateRenormalization error.  When
    the post-rule weights are not empty and sum to zero, [apply_rebalance]
    fails with the generic division by zero of its renormalization loop;
    when they sum to a negative number it does not reject: it divides by
    the negative total and returns the rounded quotients.  (In the two
    lexical variants this is for a theme that has a rule.) *)
Theorem degenerate_total_divides_or_raises_zero_division :
  forall (base : Py.dict Q) (theme : string) (intensity severity : Q),
    (forall new,
        Py.mem theme V21.macro_rebalance_rules = true ->
        V21.post_rule_weights base theme intensity = Py.Ok new ->
        (Py.sum (Py.values new) == 0 -> new <> [] ->
         V21.apply_rebalance base theme intensity = Py.Raise Py.ZeroDivisionError) /\
        (Py.sum (Py.values new) < 0 ->
         V21.apply_rebalance base theme intensity
         = Py.Ok (map (renorm_entry (Py.sum (Py.values new))) new)))
    /\
    (forall new,
        V24E.post_rule_weights base theme severity = Py.Ok new ->
        (Py.sum (Py.values new) == 0 -> new <> [] ->
         V24E.apply_rebalance base theme severity = Py.Raise Py.ZeroDivisionError) /\
        (Py.sum (Py.values new) < 0 ->
         V24E.apply_rebalance base theme severity
         = Py.Ok (map (renorm_entry (Py.sum (Py.values new))) new)))
    /\
    (Py.mem theme V24H.macro_rebalance_rules = true ->
     (Py.sum (Py.values (V24H.post_rule_weights base theme intensity)) == 0 ->
      V24H.post_rule_weights base theme intensity <> [] ->
      V24H.apply_rebalance base theme intensity = Py.Raise Py.ZeroDivisionError) /\
     (Py.sum (Py.values (V24H.post_rule_weights base theme intensity)) < 0 ->
      V24H.apply_rebalance base theme intensity
      = Py.Ok (map (renorm_entry
                      (Py.sum (Py.values (V24H.post_rule_weights base theme intensity))))
                   (V24H.post_rule_weights base theme intensity)))).
Proof.
  intros base theme intensity severity.
  assert (NEG : forall q, q < 0 -> ~ q == 0)
    by (intros q H E; rewrite E in H; now apply Qlt_irrefl in H).
  split; [|split].
  - intros new. unfold Py.mem, V21.post_rule_weights, V21.apply_rebalance.
    destruct (Py.get theme V21.macro_rebalance_rules) as [rule|]; [|discriminate].
    intros _ E. rewrite E. simpl. split.
    + intros Z NE. now apply normalize_each_zero.
    + intros N. now apply normalize_each_ok, NEG.
  - intros new. unfold V24E.post_rule_weights, V24E.apply_rebalance.
    intros E. rewrite E. simpl. split.
    + intros Z NE. now apply normalize_each_zero.
    + intros N. now apply normalize_each_ok, NEG.
  - unfold Py.mem, V24H.post_rule_weights, V24H.apply_rebalance.
    destruct (Py.get theme V24H.macro_rebalance_rules) as [rule|]; [|discriminate].
    intros _. split.
    + intros Z NE. now apply normalize_each_zero.
    + intros N. now apply normalize_each_ok, NEG.
Qed.

Lemma degenerate_total_divides_or_raises_zero_division_witness :
  V21.apply_rebalance (portfolio_of 20 20 20 20 20) "currency" 20
    = Py.Raise Py.ZeroDivisionError /\
  V21.apply_rebalance (portfolio_of 20 20 20 20 20) "currency" 30
    = Py.Ok (map (renorm_entry (Py.sum (Py.values
                    (portfolio_of 20 (20 + 5 * 30) 20 (20 + -10 * 30) 20))))
                 (portfolio_of 20 (20 + 5 * 30) 20 (20 + -10 * 30) 20)).
Proof.
  split.
  - apply (proj1 (degenerate_total_divides_or_raises_zero_division
                    (portfolio_of 20 20 20 20 20) "currency" 20 0))
      with (new := portfolio_of 20 (20 + 5 * 20) 20 (20 + -10 * 20) 20);
      [reflexivity | reflexivity | reflexivity | discriminate].
  - apply (proj1 (degenerate_total_divides_or_raises_zero_division
                    (portfolio_of 20 20 20 20 20) "currency" 30 0));
      [reflexivity | reflexivity | reflexivity].
Defined.

(** C3 as stated fails: 20/20/20/20/20 under the currency rule at
    intensity 30 has post-rule weights 20, 170, 20, -280, 20, which sum
    to -50; the call is not rejected but returns -40, -340, -40, 560, -40. *)
Lemma negative_total_is_not_rejected :
  V21.post_rule_weights (portfolio_of 20 20 20 20 20) "currency" 30
    = Py.Ok (portfolio_of 20 (20 + 5 * 30) 20 (20 + -10 * 30) 20) /\
  Py.sum (Py.values (portfolio_of 20 (20 + 5 * 30) 20 (20 + -10 * 30) 20)) == -50 /\
  V21.apply_rebalance (portfolio_of 20 20 20 20 20) "currency" 30
    = Py.Ok (portfolio_of (-4000 # 100) (-34000 # 100) (-4000 # 100) 560.00 (-4000 # 100)) /\
  Py.is_ok (V21.apply_rebalance (portfolio_of 20 20 20 20 20) "currency" 30) = true /\
  Py.is_ok (V24E.apply_rebalance (portfolio_of 20 20 20 20 20) "currency_fx" 3000) = true.
Proof.
  repeat split; reflexivity.
Qed.

(** C2. The v2.1 script, fed 0/100/0/0/0 and a headline that classifies as
    interest_rate with impact 45, recommends Equities at -4.5: the weight
    made negative by the rule is divided by the total as it is.  The
    embedding variant does the same. *)
Theorem negative_weight_is_renormalized_unclamped :
  V21.main 0 100 0 0 0 "Fed rate hike crisis" true
    = Rebalanced "macro" "interest_rate" 45
        (portfolio_of (-450 # 100) 104.50 0.00 0.00 0.00) /\
  V21.post_rule_weights (portfolio_of 0 100 0 0 0) "interest_rate" (45 / 100)
    = Py.Ok (portfolio_of (0 + -10 * (45 / 100)) (100 + 10 * (45 / 100)) 0 0 0) /\
  V21.apply_rebalance (portfolio_of 0 100 0 0 0) "interest_rate" (45 / 100)
    = Py.Ok (portfolio_of (-450 # 100) 104.50 0.00 0.00 0.00) /\
  V24E.apply_rebalance (portfolio_of 0 100 0 0 0) "political_shock" 100
    = Py.Ok (portfolio_of (-1200 # 100) 112.00 0.00 0.00 0.00).
Proof.
  repeat split; reflexivity.
Qed.

End Rebalance.

(** ** The horizon gate *)

Section HorizonGate.

Lemma leb_true (a b : Q) : Py.leb a b = true <-> a <= b.
Proof. apply Qle_bool_iff. Qed.

Lemma leb_false (a b : Q) : Py.leb a b = false <-> b < a.
Proof.
  unfold Py.leb. split.
  - intros H. apply Qnot_le_lt. intros L. apply Qle_bool_iff in L. congruence.
  - intros H. destruct (Qle_bool a b) eqn:E; [|reflexivity].
    apply Qle_bool_iff in E. exfalso. apply (Qlt_not_le _ _ H E).
Qed.

Lemma geb_true (a b : Q) : Py.geb a b = true <-> b <= a.
Proof. apply Qle_bool_iff. Qed.

Lemma ltb_true (a b : Q) : Py.ltb a b = true <-> a < b.
Proof.
  unfold Py.ltb. rewrite negb_true_iff. apply (leb_false b a).
Qed.

Lemma gtb_true (a b : Q) : Py.gtb a b = true <-> b < a.
Proof.
  unfold Py.gtb. rewrite negb_true_iff. apply (leb_false a b).
Qed.

Lemma gate_brackets (gate : Q -> Q -> bool) :
  (forall s h, gate s h =
     if Py.leb h 1 then Py.geb s 20
     else if Py.leb h 3 then Py.geb s 40 else Py.geb s 70) ->
  forall s h,
    gate s h = true <->
    (h <= 1 /\ 20 <= s) \/ (1 < h /\ h <= 3 /\ 40 <= s) \/ (3 < h /\ 70 <= s).
Proof.
  intros Hgate s h. rewrite Hgate.
  destruct (Py.leb h 1) eqn:E1; [apply leb_true in E1 | apply leb_false in E1].
  - rewrite geb_true. split; [tauto|]. intros [?|[?|?]]; [tauto | lra | lra].
  - destruct (Py.leb h 3) eqn:E3; [apply leb_true in E3 | apply leb_false in E3];
      rewrite geb_true; (split; [tauto|]); intros [?|[?|?]]; (tauto || lra).
Qed.

(** C4. The horizon gate passes exactly when the severity reaches the
    threshold of the bracket the horizon falls in: 20 up to one year, 40
    above one and up to three years, 70 above three years; with the four
    boundary cases of the specification. *)
Theorem horizon_threshold_brackets :
  forall s h : Q,
    (V24E.horizon_threshold s h = true <->
     (h <= 1 /\ 20 <= s) \/ (1 < h /\ h <= 3 /\ 40 <= s) \/ (3 < h /\ 70 <= s)) /\
    (V24H.horizon_threshold s h = true <->
     (h <= 1 /\ 20 <= s) \/ (1 < h /\ h <= 3 /\ 40 <= s) \/ (3 < h /\ 70 <= s)) /\
    V24E.horizon_threshold 20 1.0 = true /\ V24H.horizon_threshold 20 1.0 = true /\
    V24E.horizon_threshold 19.99 1.0 = false /\ V24H.horizon_threshold 19.99 1.0 = false /\
    V24E.horizon_threshold 40 2.0 = true /\ V24H.horizon_threshold 40 2.0 = true /\
    V24E.horizon_threshold 69.99 5.0 = false /\ V24H.horizon_threshold 69.99 5.0 = false.
Proof.
  intros s h.
  split; [apply (gate_brackets V24E.horizon_threshold); reflexivity|].
  split; [apply (gate_brackets V24H.horizon_threshold); reflexivity|].
  repeat split; reflexivity.
Qed.

End HorizonGate.

(** ** The severity scorers *)

Section Severity.

Lemma min_le_l (a b : Q) : Py.min a b <= a.
Proof.
  unfold Py.min. destruct (Py.ltb b a) eqn:E; [|apply Qle_refl].
  apply ltb_true in E. now apply Qlt_le_weak.
Qed.

Lemma min_le_r (a b : Q) : Py.min a b <= b.
Proof.
  unfold Py.min. destruct (Py.ltb b a) eqn:E; [apply Qle_refl|].
  unfold Py.ltb in E. apply negb_false_iff in E. now apply Qle_bool_iff in E.
Qed.

Lemma min_glb (a b c : Q) : c <= a -> c <= b -> c <= Py.min a b.
Proof. intros Ha Hb. unfold Py.min. now destruct (Py.ltb b a). Qed.

Lemma max_ge_l (a b : Q) : a <= Py.max a b.
Proof.
  unfold Py.max. destruct (Py.gtb b a) eqn:E; [|apply Qle_refl].
  apply gtb_true in E. now apply Qlt_le_weak.
Qed.

Lemma max_ge_r (a b : Q) : b <= Py.max a b.
Proof.
  unfold Py.max. destruct (Py.gtb b a) eqn:E; [apply Qle_refl|].
  unfold Py.gtb in E. apply negb_false_iff in E. now apply Qle_bool_iff in E.
Qed.

(** A running total that only ever adds non-negative points stays
    non-negative. *)
Lemma accumulate_nonneg (hit : string -> bool) (points : Q -> Q) (table : Py.dict Q) :
  Forall (fun e => 0 <= points (snd e)) table ->
  forall acc, 0 <= acc ->
    0 <= fold_left (fun score '(word, v) =>
                      if hit word then score + points v else score) table acc.
Proof.
  induction 1 as [|[word v] table Hv _ IH]; intros acc Hacc; simpl.
  - exact Hacc.
  - apply IH. destruct (hit word); [|exact Hacc]. simpl in Hv.
    generalize dependent (points v). intros; lra.
Qed.

Lemma V21_impact_bounds (text : string) :
  0 <= V21.compute_impact_score text <= 100.
Proof.
  unfold V21.compute_impact_score. split; [|apply min_le_r].
  apply min_glb; [|discriminate].
  apply (accumulate_nonneg (fun word => Py.contains word (Py.lower text)) (fun v => v)).
  - unfold V21.severity_weights. repeat constructor; discriminate.
  - apply Qle_refl.
Qed.

Lemma V24H_impact_bounds (text : string) :
  20 <= V24H.compute_impact_score text <= 100.
Proof.
  unfold V24H.compute_impact_score. split; [|apply min_le_r].
  apply min_glb; [apply max_ge_r | discriminate].
Qed.

Lemma V24E_severity_bounds (primary_score secondary_score : Q) (sentiment : Z)
    (horizon_years : Q) :
  20 <= V24E.compute_severity primary_score secondary_score sentiment horizon_years <= 100.
Proof.
  unfold V24E.compute_severity. split; [|apply min_le_l].
  apply min_glb; [discriminate | apply max_ge_l].
Qed.

(** C7. Every severity scorer returns a value in its declared range:
    [0, 100] for the v2.1 keyword sum, [20, 100] for the floor-20 keyword
    sum and for the similarity-based severity, whatever the headline, the
    scores, the sentiment and the horizon. *)
Theorem severity_within_declared_range :
  forall (headline : string) (primary_score secondary_score : Q) (sentiment : Z)
         (horizon_years : Q),
    0 <= V21.compute_impact_score headline <= 100 /\
    20 <= V24H.compute_impact_score headline <= 100 /\
    20 <= V24E.compute_severity primary_score secondary_score sentiment horizon_years <= 100.
Proof.
  intros. split; [apply V21_impact_bounds|].
  split; [apply V24H_impact_bounds | apply V24E_severity_bounds].
Qed.

End Severity.

(** ** The lexical classifiers *)

Section Classifiers.

Lemma any_in_true (words : list string) (text : string) :
  Py.any_in words text = true <->
  exists w, In w words /\ Py.contains w text = true.
Proof. apply existsb_exists. Qed.

(** [first_theme] finds a theme exactly when some keyword of some theme
    occurs in the text. *)
Lemma first_theme_some {K : Type} (themes : list (K * list string)) (text : string) :
  (exists key, first_theme themes text = Some key) <->
  exists key words w,
    In (key, words) themes /\ In w words /\ Py.contains w text = true.
Proof.
  induction themes as [|[key words] rest IH]; simpl.
  - split; [intros [? [=]] | intros (? & ? & ? & [] & _)].
  - destruct (Py.any_in words text) eqn:E.
    + split; [|eauto]. intros _. apply any_in_true in E as (w & Hw & Hc).
      exists key, words, w. auto.
    + rewrite IH. split.
      * intros (k & ws & w & Hin & Hw & Hc). exists k, ws, w. auto.
      * intros (k & ws & w & [[= <- <-]|Hin] & Hw & Hc).
        -- assert (Py.any_in words text = true) by (apply any_in_true; eauto).
           congruence.
        -- exists k, ws, w. auto.
Qed.

(** C8. A headline whose lower-cased text contains an irrelevant keyword
    and a macro-theme keyword is classified irrelevant by both lexical
    classifiers. *)
Theorem irrelevant_keyword_takes_precedence :
  forall text : string,
    ((exists w, In w V21.irrelevant_keywords /\ Py.contains w (Py.lower text) = true) ->
     (exists key words w, In (key, words) V21.macro_themes /\ In w words /\
                          Py.contains w (Py.lower text) = true) ->
     fst (V21.classify_news text) = "irrelevant") /\
    ((exists w, In w V24H.irrelevant_keywords /\ Py.contains w (Py.lower text) = true) ->
     (exists key words w, In (key, words) V24H.macro_themes /\ In w words /\
                          Py.contains w (Py.lower text) = true) ->
     fst (V24H.classify_news text) = "irrelevant").
Proof.
  intros text. split; intros Hirr _; apply any_in_true in Hirr.
  - unfold V21.classify_news. now rewrite Hirr.
  - unfold V24H.classify_news. now rewrite Hirr.
Qed.

Lemma irrelevant_keyword_takes_precedence_witness :
  fst (V21.classify_news "Fed hikes rates amid celebrity gossip") = "irrelevant" /\
  fst (V24H.classify_news "Fed hikes rates amid celebrity gossip") = "irrelevant".
Proof.
  destruct (irrelevant_keyword_takes_precedence "Fed hikes rates amid celebrity gossip")
    as [A B].
  split.
  - apply A.
    + exists "celebrity". split; [simpl; tauto | reflexivity].
    + exists "interest_rate",
        ["interest"; "inflation"; "cpi"; "ppi"; "fed"; "ecb"; "rate hike"; "yields"], "fed".
      split; [simpl; tauto|]. split; [simpl; tauto | reflexivity].
  - apply B.
    + exists "celebrity". split; [simpl; tauto | reflexivity].
    + exists "interest_rate",
        ["interest"; "inflation"; "cpi"; "ppi"; "fed"; "ecb"; "rate hike"; "yields"], "fed".
      split; [simpl; tauto|]. split; [simpl; tauto | reflexivity].
Defined.

(** C5 (amended). The v2.1 and v2.4 classifiers read the headline only
    through its lower-cased text.  The v0.1 classifier returns a cluster
    that does not depend on the random draw when some cluster keyword
    occurs in the lower-cased headline; when none does, it returns the draw. *)
Theorem classifiers_deterministic_up_to_fallback_draw :
  forall (text text' : string) (draw draw' : Z),
    (Py.lower text = Py.lower text' ->
     V21.classify_news text = V21.classify_news text' /\
     V24H.classify_news text = V24H.classify_news text') /\
    ((exists id words w, In (id, words) V01.keywords /\ In w words /\
                         Py.contains w (Py.lower text) = true) ->
     V01.simulate_macro_cluster draw text = V01.simulate_macro_cluster draw' text) /\
    ((forall id words w, In (id, words) V01.keywords -> In w words ->
                         Py.contains w (Py.lower text) = false) ->
     V01.simulate_macro_cluster draw text = draw).
Proof.
  intros text text' draw draw'. split; [|split].
  - intros E. unfold V21.classify_news, V24H.classify_news. now rewrite E.
  - intros H. apply first_theme_some in H as [id H].
    unfold V01.simulate_macro_cluster. now rewrite H.
  - intros H. unfold V01.simulate_macro_cluster.
    destruct (first_theme V01.keywords (Py.lower text)) as [id|] eqn:E; [|reflexivity].
    assert (S : exists key, first_theme V01.keywords (Py.lower text) = Some key) by eauto.
    apply first_theme_some in S as (k & ws & w & Hin & Hw & Hc).
    rewrite (H k ws w Hin Hw) in Hc. discriminate.
Qed.

Lemma classifiers_deterministic_up_to_fallback_draw_witness :
  (V21.classify_news "FED HIKES RATES" = V21.classify_news "fed hikes rates" /\
   V24H.classify_news "FED HIKES RATES" = V24H.classify_news "fed hikes rates") /\
  V01.simulate_macro_cluster 0 "FED HIKES RATES"
  = V01.simulate_macro_cluster 7 "FED HIKES RATES" /\
  V01.simulate_macro_cluster 3 "Hello world" = 3%Z.
Proof.
  destruct (classifiers_deterministic_up_to_fallback_draw
              "FED HIKES RATES" "fed hikes rates" 0 7) as (A & B & _).
  destruct (classifiers_deterministic_up_to_fallback_draw
              "Hello world" "Hello world" 3 3) as (_ & _ & C).
  split; [|split].
  - apply A. reflexivity.
  - apply B. exists 4%Z, ["dollar"; "currency"; "forex"; "fed"], "fed".
    split; [simpl; tauto|]. split; [simpl; tauto | reflexivity].
  - apply C. intros id words w Hin Hw. simpl in Hin.
    repeat (destruct Hin as [[= <- <-]|Hin];
            [simpl in Hw; repeat (destruct Hw as [<-|Hw]; [reflexivity|]); contradiction|]).
    contradiction.
Defined.

(** C5 as stated fails on the v0.1 classifier: no cluster keyword occurs
    in "Hello world", and two runs whose fallback draws are 0 and 5 return
    clusters 0 and 5. *)
Lemma keywordless_headline_follows_the_draw :
  first_theme V01.keywords (Py.lower "Hello world") = None /\
  V01.simulate_macro_cluster 0 "Hello world" = 0%Z /\
  V01.simulate_macro_cluster 5 "Hello world" = 5%Z /\
  V01.simulate_macro_cluster 0 "Hello world" <> V01.simulate_macro_cluster 5 "Hello world".
Proof.
  split; [reflexivity|]. split; [reflexivity|]. split; [reflexivity|]. discriminate.
Qed.

End Classifiers.

(** ** The horizon-aware script *)

Section Pipeline.

Lemma first_theme_key {K : Type} (themes : list (K * list string)) (text : string) (key : K) :
  first_theme themes text = Some key -> In key (map fst themes).
Proof.
  induction themes as [|[k words] rest IH]; simpl; [discriminate|].
  destruct (Py.any_in words text); [intros [= ->]; now left | right; now apply IH].
Qed.

(** A macro verdict names one of the macro themes. *)
Lemma V24H_macro_theme (headline theme : string) :
  V24H.classify_news headline = ("macro", theme) ->
  In theme (map fst V24H.macro_themes).
Proof.
  unfold V24H.classify_news.
  destruct (Py.any_in V24H.irrelevant_keywords (Py.lower headline)); [discriminate|].
  destruct (first_theme V24H.micro_themes (Py.lower headline)); [discriminate|].
  destruct (first_theme V24H.macro_themes (Py.lower headline)) as [key|] eqn:E;
    [|discriminate].
  intros [= <-]. now apply first_theme_key in E.
Qed.

(** On the form's five-asset portfolio summing to 100 and an intensity in
    [0, 1], every macro theme's rule leaves a positive total, so the
    renormalization completes. *)
Lemma V24H_rebalance_completes (e b t c m : Q) (theme : string) (i : Q) :
  In theme (map fst V24H.macro_themes) ->
  e + b + t + c + m == 100 -> 0 <= i <= 1 ->
  exists updated, V24H.apply_rebalance (portfolio_of e b t c m) theme i = Py.Ok updated.
Proof.
  intros Hin Hsum [Hi0 Hi1]. simpl in Hin.
  repeat (destruct Hin as [<-|Hin]); try contradiction;
    unfold V24H.apply_rebalance, portfolio_of;
    cbn [Py.get V24H.macro_rebalance_rules String.eqb Ascii.eqb Bool.eqb
         shift_present_weights Py.setitem];
    unfold renormalize; cbn [Py.values map snd Py.sum fold_left];
    (rewrite normalize_each_ok; [eauto | intros E; lra]).
Qed.

Lemma untouched_score (hit : string -> bool) (points : Q -> Q) (table : Py.dict Q) (acc : Q) :
  (forall word, In word (Py.keys table) -> hit word = false) ->
  fold_left (fun score '(word, v) => if hit word then score + points v else score)
            table acc = acc.
Proof.
  revert acc. induction table as [|[word v] table IH]; intros acc H; simpl.
  - reflexivity.
  - rewrite (H word) by now left. apply IH. intros w Hw. apply H. now right.
Qed.

(** C10. The floor-20 scorer returns a value in [20, 100] for every
    headline, exactly 20 when no severity keyword occurs; so for a horizon
    of at most one year every macro-classified headline passes the gate,
    and the script, on weights that sum to 100, shows a rebalanced
    portfolio. *)
Theorem floor20_macro_headline_rebalances_within_a_year :
  forall headline : string,
    20 <= V24H.compute_impact_score headline <= 100 /\
    ((forall word, In word (Py.keys V24H.severity_weights) ->
                   Py.contains word (Py.lower headline) = false) ->
     V24H.compute_impact_score headline = 20) /\
    (forall (horizon_years : Q) (equity_w bond_w etf_w crypto_w cmdty_w : Z),
        horizon_years <= 1 ->
        fst (V24H.classify_news headline) = "macro" ->
        (equity_w + bond_w + etf_w + crypto_w + cmdty_w = 100)%Z ->
        V24H.horizon_threshold (V24H.compute_impact_score headline) horizon_years = true /\
        exists updated,
          V24H.main equity_w bond_w etf_w crypto_w cmdty_w horizon_years headline true
          = Rebalanced "macro" (snd (V24H.classify_news headline))
                       (V24H.compute_impact_score headline) updated).
Proof.
  intros headline.
  pose proof (V24H_impact_bounds headline) as [Hlo Hhi].
  split; [now split|]. split.
  - intros H. unfold V24H.compute_impact_score.
    rewrite (untouched_score (fun word => Py.contains word (Py.lower headline))
                             (fun mult => 20 * (mult - 1 + 1)) _ 0 H).
    reflexivity.
  - intros horizon_years equity_w bond_w etf_w crypto_w cmdty_w Hh Hmacro Hsum.
    assert (Hgate : V24H.horizon_threshold (V24H.compute_impact_score headline)
                                           horizon_years = true).
    { unfold V24H.horizon_threshold. apply leb_true in Hh. rewrite Hh.
      now apply geb_true. }
    split; [exact Hgate|].
    unfold V24H.main. rewrite Hsum. cbn [Z.eqb Pos.eqb negb andb].
    assert (Htruthy : Py.truthy headline = true).
    { destruct headline; [discriminate Hmacro | reflexivity]. }
    rewrite Htruthy. cbn [negb].
    destruct (V24H.classify_news headline) as [event_type theme] eqn:C.
    simpl in Hmacro. subst event_type. cbn [snd].
    change (String.eqb "macro" "irrelevant") with false. cbv iota.
    rewrite Hgate. cbn [negb].
    destruct (V24H_rebalance_completes
                (inject_Z equity_w) (inject_Z bond_w) (inject_Z etf_w)
                (inject_Z crypto_w) (inject_Z cmdty_w) theme
                (V24H.compute_impact_score headline / 100)) as [updated U].
    + now apply V24H_macro_theme with headline.
    + rewrite <- !inject_Z_plus, Hsum. reflexivity.
    + unfold Qdiv. change (/ 100) with (1 # 100).
      generalize dependent (V24H.compute_impact_score headline). intros; lra.
    + rewrite U. now exists updated.
Qed.

Lemma floor20_macro_headline_rebalances_within_a_year_witness :
  V24H.compute_impact_score "Fed holds steady" = 20 /\
  V24H.horizon_threshold (V24H.compute_impact_score "Fed holds steady") 1 = true /\
  exists updated,
    V24H.main 20 20 20 20 20 1 "Fed holds steady" true
    = Rebalanced "macro" (snd (V24H.classify_news "Fed holds steady"))
                 (V24H.compute_impact_score "Fed holds steady") updated.
Proof.
  destruct (floor20_macro_headline_rebalances_within_a_year "Fed holds steady")
    as (_ & A & B).
  split.
  - apply A. intros word Hin. simpl in Hin.
    repeat (destruct Hin as [<-|Hin]; [reflexivity|]). contradiction.
  - apply (B 1 20%Z 20%Z 20%Z 20%Z 20%Z); [discriminate | reflexivity | reflexivity].
Defined.

End Pipeline.

(** ** The v0.1 suggestion clips before it normalizes *)

Section Clipping.

Lemma sum_nonneg (xs : list Q) : Forall (fun x => 0 <= x) xs -> 0 <= Py.sum xs.
Proof.
  induction 1 as [|x xs Hx _ IH]; [discriminate|].
  rewrite sum_cons. generalize dependent (Py.sum xs). intros; lra.
Qed.




End Clipping.

(** ** Table order and the scenarios of the specification *)

Section Scenarios.



Example oil_and_inflation_is_interest_rate :
  V21.classify_news "Oil jumps as inflation bites" = ("macro", "interest_rate") /\
  V24H.classify_news "Oil jumps as inflation bites" = ("macro", "interest_rate").
Proof. split; reflexivity. Qed.

Example federal_reserve_scenario :
  V21.classify_news "Federal Reserve raises rates by 0.5%" = ("macro", "interest_rate") /\
  V21.compute_impact_score "Federal Reserve raises rates by 0.5%" = 0 /\
  V21.main 20 20 20 20 20 "Federal Reserve raises rates by 0.5%" true
    = Stopped "macro" "interest_rate" 0 /\
  V24H.compute_impact_score "Federal Reserve raises rates by 0.5%" = 20 /\
  V24H.main 20 20 20 20 20 1 "Federal Reserve raises rates by 0.5%" true
    = Rebalanced "macro" "interest_rate" 20
        (portfolio_of 18.00 22.00 20.00 20.00 20.00).
Proof. repeat split; reflexivity. Qed.

Example celebrity_scenario :
  V21.main 20 20 20 20 20 "Local celebrity wins award at film festival" true
    = Stopped "irrelevant" "Not market-affecting" 30 /\
  V24H.main 20 20 20 20 20 5 "Local celebrity wins award at film festival" true
    = Stopped "irrelevant" "Local / Irrelevant News" (0 + 20 * (1.5 - 1 + 1)).
Proof. split; reflexivity. Qed.

Example earnings_scenario :
  V21.main 20 20 20 20 20 "Company X reports record quarterly earnings" true
    = Stopped "micro" "earnings" 0 /\
  V24H.main 20 20 20 20 20 1 "Company X reports record quarterly earnings" true
    = Rebalanced "micro" "earnings" 20 (portfolio_of 20 20 20 20 20).
Proof. split; reflexivity. Qed.

Example rejected_allocation :
  V21.main 20 20 20 20 30 "Fed rate hike crisis" true = Rejected 110.
Proof. reflexivity. Qed.

Example equal_weight_frame :
  V01.create_equal_weight_portfolio ["SPY"; "IEF"; "BTC"; "QQQ"; "GLD"] 10000
  = Py.Ok (map (fun a => V01.mk_row a (1 / 5) (10000 * (1 / 5)))
               ["SPY"; "IEF"; "BTC"; "QQQ"; "GLD"]) /\
  V01.create_equal_weight_portfolio [] 10000 = Py.Raise Py.ZeroDivisionError.
Proof. split; reflexivity. Qed.

End Scenarios.

(** ** More on the rebalance engine *)

Section RebalanceShape.

Lemma setitem_keys (d : Py.dict Q) (k : string) (w v : Q) :
  Py.get k d = Some w -> Py.keys (Py.setitem k v d) = Py.keys d.
Proof.
  unfold Py.keys. induction d as [|[k' w'] d IH]; simpl; [discriminate|].
  destruct (String.eqb k k'); simpl; [reflexivity|]. intros G. now rewrite IH.
Qed.

Lemma shift_weights_keys (rule : Py.dict Q) (intensity : Q) (new new' : Py.dict Q) :
  shift_weights rule intensity new = Py.Ok new' -> Py.keys new' = Py.keys new.
Proof.
  revert new. induction rule as [|[asset shift] rule IH]; intros new; simpl.
  - now intros [= ->].
  - unfold Py.getitem. destruct (Py.get asset new) as [w|] eqn:G; simpl; [|discriminate].
    intros E. apply IH in E. rewrite E. now apply setitem_keys with w.
Qed.

Lemma shift_present_weights_keys (rule : Py.dict Q) (intensity : Q) (new : Py.dict Q) :
  Py.keys (shift_present_weights rule intensity new) = Py.keys new.
Proof.
  revert new. induction rule as [|[asset change] rule IH]; intros new; simpl.
  - reflexivity.
  - destruct (Py.get asset new) as [w|] eqn:G; [|apply IH].
    rewrite IH. now apply setitem_keys with w.
Qed.

(** What the renormalization loop returns, when it returns: one rounded
    entry per input entry, under the same key. *)
Lemma normalize_each_shape (total : Q) (new out : Py.dict Q) :
  normalize_each total new = Py.Ok out ->
  Py.keys out = Py.keys new /\ Forall (fun e => two_decimals (snd e)) out.
Proof.
  revert out. induction new as [|[k w] rest IH]; intros out; simpl.
  - intros [= <-]. split; [reflexivity | constructor].
  - destruct (Py.div w total) as [q|]; simpl; [|discriminate].
    destruct (normalize_each total rest) as [rest'|]; simpl; [|discriminate].
    intros [= <-]. destruct (IH rest' eq_refl) as [K D]. split.
    + unfold Py.keys in *. simpl. now rewrite K.
    + constructor; [|exact D]. simpl. unfold Py.round2. now eexists.
Qed.

(** X3. Whenever one of the three [apply_rebalance] bodies returns, the
    portfolio it returns lists the same assets as its input, in the same
    order. *)
Theorem apply_rebalance_keeps_assets :
  forall (base out : Py.dict Q) (theme : string) (x : Q),
    (V21.apply_rebalance base theme x = Py.Ok out -> Py.keys out = Py.keys base) /\
    (V24E.apply_rebalance base theme x = Py.Ok out -> Py.keys out = Py.keys base) /\
    (V24H.apply_rebalance base theme x = Py.Ok out -> Py.keys out = Py.keys base).
Proof.
  intros base out theme x. split; [|split].
  - unfold V21.apply_rebalance.
    destruct (Py.get theme V21.macro_rebalance_rules) as [rule|]; [|now intros [= ->]].
    destruct (shift_weights rule x base) as [new|] eqn:S; simpl; [|discriminate].
    intros R. apply normalize_each_shape in R as [K _].
    rewrite K. now apply shift_weights_keys in S.
  - unfold V24E.apply_rebalance.
    destruct (Py.get theme V24E.rebalance_rules) as [rule|].
    + destruct (shift_weights rule (x / 100) base) as [new|] eqn:S; simpl; [|discriminate].
      intros R. apply normalize_each_shape in R as [K _].
      rewrite K. now apply shift_weights_keys in S.
    + simpl. intros R. now apply normalize_each_shape in R as [K _].
  - unfold V24H.apply_rebalance.
    destruct (Py.get theme V24H.macro_rebalance_rules) as [rule|]; [|now intros [= ->]].
    intros R. apply normalize_each_shape in R as [K _].
    rewrite K. apply shift_present_weights_keys.
Qed.

Lemma apply_rebalance_keeps_assets_witness :
  Py.keys (portfolio_of 23.26 23.26 23.26 6.98 23.26) = Py.keys (portfolio_of 25 25 25 0 25) /\
  Py.keys (portfolio_of 23.26 23.26 23.26 6.98 23.26) = Py.keys (portfolio_of 25 25 25 0 25) /\
  Py.keys (portfolio_of 23.26 23.26 23.26 6.98 23.26) = Py.keys (portfolio_of 25 25 25 0 25).
Proof.
  destruct (apply_rebalance_keeps_assets
              (portfolio_of 25 25 25 0 25) (portfolio_of 23.26 23.26 23.26 6.98 23.26)
              "crypto" (1 # 2)) as (A & _ & C).
  destruct (apply_rebalance_keeps_assets
              (portfolio_of 25 25 25 0 25) (portfolio_of 23.26 23.26 23.26 6.98 23.26)
              "crypto" 50) as (_ & B & _).
  split; [apply A; reflexivity|]. split; [apply B; reflexivity | apply C; reflexivity].
Defined.

(** X4. A rebalance that goes through a rule returns weights with at most
    two decimal places; in the embedding variant that is every rebalance. *)
Theorem apply_rebalance_weights_have_two_decimals :
  forall (base out : Py.dict Q) (theme : string) (x : Q),
    (Py.mem theme V21.macro_rebalance_rules = true ->
     V21.apply_rebalance base theme x = Py.Ok out ->
     Forall (fun e => two_decimals (snd e)) out) /\
    (V24E.apply_rebalance base theme x = Py.Ok out ->
     Forall (fun e => two_decimals (snd e)) out) /\
    (Py.mem theme V24H.macro_rebalance_rules = true ->
     V24H.apply_rebalance base theme x = Py.Ok out ->
     Forall (fun e => two_decimals (snd e)) out).
Proof.
  intros base out theme x. split; [|split].
  - unfold Py.mem, V21.apply_rebalance.
    destruct (Py.get theme V21.macro_rebalance_rules) as [rule|]; [|discriminate].
    intros _. destruct (shift_weights rule x base) as [new|]; simpl; [|discriminate].
    intros R. now apply normalize_each_shape in R.
  - unfold V24E.apply_rebalance.
    destruct (match Py.get theme V24E.rebalance_rules with
              | Some rule => shift_weights rule (x / 100) base
              | None => Py.Ok base
              end) as [new|]; simpl; [|discriminate].
    intros R. now apply normalize_each_shape in R.
  - unfold Py.mem, V24H.apply_rebalance.
    destruct (Py.get theme V24H.macro_rebalance_rules) as [rule|]; [|discriminate].
    intros _ R. now apply normalize_each_shape in R.
Qed.

Lemma apply_rebalance_weights_have_two_decimals_witness :
  Forall (fun e => two_decimals (snd e)) (portfolio_of 23.26 23.26 23.26 6.98 23.26) /\
  Forall (fun e => two_decimals (snd e)) (portfolio_of 20.00 20.00 20.00 20.00 20.00) /\
  Forall (fun e => two_decimals (snd e)) (portfolio_of 23.26 23.26 23.26 6.98 23.26).
Proof.
  destruct (apply_rebalance_weights_have_two_decimals
              (portfolio_of 25 25 25 0 25) (portfolio_of 23.26 23.26 23.26 6.98 23.26)
              "crypto" (1 # 2)) as (A & _ & C).
  destruct (apply_rebalance_weights_have_two_decimals
              (portfolio_of 50 50 50 50 50) (portfolio_of 20.00 20.00 20.00 20.00 20.00)
              "weather" 100) as (_ & B & _).
  split; [apply A; reflexivity|]. split; [apply B; reflexivity | apply C; reflexivity].
Defined.

End RebalanceShape.

Section RebalanceErrors.

Lemma shift_weights_agrees (rule : Py.dict Q) (intensity : Q) (new : Py.dict Q) :
  covers new rule = true ->
  shift_weights rule intensity new = Py.Ok (shift_present_weights rule intensity new).
Proof.
  revert new. induction rule as [|[asset shift] rule IH]; intros new Hc; simpl.
  - reflexivity.
  - simpl in Hc. apply andb_prop in Hc as [Hm Hc].
    unfold Py.getitem, Py.mem in *. destruct (Py.get asset new) as [w|] eqn:G; [|discriminate].
    simpl. apply IH. now rewrite (setitem_covers _ _ _ w).
Qed.

(** The unguarded loop stops at the first asset of the rule, in rule
    order, that the portfolio does not hold. *)
Lemma shift_weights_missing (rule : Py.dict Q) (intensity : Q) (new : Py.dict Q) :
  covers new rule = false ->
  exists asset,
    In asset (Py.keys rule) /\ Py.mem asset new = false /\
    shift_weights rule intensity new = Py.Raise (Py.KeyError asset).
Proof.
  revert new. induction rule as [|[asset shift] rule IH]; intros new Hc; simpl in *.
  - discriminate.
  - unfold Py.getitem, Py.mem in *. destruct (Py.get asset new) as [w|] eqn:G; simpl in *.
    + destruct (IH (Py.setitem asset (w + shift * intensity) new)) as (a & Hin & Hm & E).
      { now rewrite (setitem_covers _ _ _ w). }
      exists a. split; [now right|]. split; [|exact E].
      pose proof (setitem_mem new asset a w (w + shift * intensity) G) as M.
      unfold Py.mem in M. now rewrite <- M.
    + exists asset. split; [now left|]. now rewrite G.
Qed.

Lemma normalize_each_error (total : Q) (new : Py.dict Q) (e : Py.exn) :
  normalize_each total new = Py.Raise e -> e = Py.ZeroDivisionError.
Proof.
  induction new as [|[k w] rest IH]; simpl; [discriminate|].
  unfold Py.div. destruct (Qeq_bool total 0); simpl; [now intros [= <-]|].
  destruct (normalize_each total rest) as [rest'|e']; simpl; [discriminate|].
  intros [= <-]. now apply IH.
Qed.

Lemma lexical_rebalances_agree (base : Py.dict Q) (theme : string) (intensity : Q) :
  has_asset_classes base = true ->
  V21.apply_rebalance base theme intensity = V24H.apply_rebalance base theme intensity.
Proof.
  intros H. unfold V21.apply_rebalance, V24H.apply_rebalance.
  change V24H.macro_rebalance_rules with V21.macro_rebalance_rules.
  destruct (Py.get theme V21.macro_rebalance_rules) as [rule|] eqn:G; [|reflexivity].
  now rewrite (shift_weights_agrees rule intensity base (V21_rules_covered _ _ _ H G)).
Qed.

(** X5. On a portfolio that holds every asset class the v2.1 and the
    v2.4-horizon rebalance agree.  When the portfolio lacks an asset of the
    theme's rule, v2.1 raises [KeyError] for it, while v2.4-horizon skips
    it: the only error v2.4-horizon can raise is the division by zero. *)
Theorem missing_asset_raises_or_is_skipped :
  forall (base : Py.dict Q) (theme : string) (intensity : Q),
    (has_asset_classes base = true ->
     V21.apply_rebalance base theme intensity = V24H.apply_rebalance base theme intensity) /\
    (forall rule,
        Py.get theme V21.macro_rebalance_rules = Some rule ->
        covers base rule = false ->
        exists asset,
          In asset (Py.keys rule) /\ Py.mem asset base = false /\
          V21.apply_rebalance base theme intensity = Py.Raise (Py.KeyError asset)) /\
    (forall e,
        V24H.apply_rebalance base theme intensity = Py.Raise e ->
        e = Py.ZeroDivisionError).
Proof.
  intros base theme intensity. split; [|split].
  - apply lexical_rebalances_agree.
  - intros rule G Hc. unfold V21.apply_rebalance. rewrite G.
    destruct (shift_weights_missing rule intensity base Hc) as (a & Hin & Hm & E).
    exists a. rewrite E. auto.
  - intros e. unfold V24H.apply_rebalance.
    destruct (Py.get theme V24H.macro_rebalance_rules) as [rule|]; [|discriminate].
    apply normalize_each_error.
Qed.

Lemma missing_asset_raises_or_is_skipped_witness :
  V21.apply_rebalance (portfolio_of 20 20 20 20 20) "energy" (1 # 2)
  = V24H.apply_rebalance (portfolio_of 20 20 20 20 20) "energy" (1 # 2) /\
  (exists asset,
      In asset (Py.keys [("Commodities", 15); ("Equities", -5)]) /\
      Py.mem asset [("Commodities", 100)] = false /\
      V21.apply_rebalance [("Commodities", 100)] "energy" (1 # 2)
      = Py.Raise (Py.KeyError asset)) /\
  Py.ZeroDivisionError = Py.ZeroDivisionError.
Proof.
  destruct (missing_asset_raises_or_is_skipped
              (portfolio_of 20 20 20 20 20) "energy" (1 # 2)) as (A & _ & _).
  destruct (missing_asset_raises_or_is_skipped
              [("Commodities", 100)] "energy" (1 # 2)) as (_ & B & _).
  destruct (missing_asset_raises_or_is_skipped
              [("Crypto", 10)] "currency" 1) as (_ & _ & C).
  split; [apply A; reflexivity|]. split; [apply B; reflexivity|].
  apply C. reflexivity.
Defined.

End RebalanceErrors.

Section RebalanceSigns.

Lemma round_half_even_nonneg (x : Q) : 0 <= x -> (0 <= Py.round_half_even x)%Z.
Proof.
  intros H. unfold Py.round_half_even.
  assert (F : (0 <= Qfloor x)%Z).
  { change 0%Z with (Qfloor 0). now apply Qfloor_resp_le. }
  destruct (Qcompare (x - inject_Z (Qfloor x)) (1 # 2));
    try destruct (Z.even (Qfloor x)); lia.
Qed.

Lemma round2_nonneg (x : Q) : 0 <= x -> 0 <= Py.round2 x.
Proof.
  intros H.
  assert (H100 : 0 <= x * 100) by lra.
  apply round_half_even_nonneg in H100.
  unfold Py.round2, Qle. simpl. lia.
Qed.

Lemma weights_sum_nonneg (d : Py.dict Q) :
  Forall (fun e => 0 <= snd e) d -> 0 <= Py.sum (Py.values d).
Proof.
  intros H. apply sum_nonneg. unfold Py.values. now apply Forall_map.
Qed.

(** Renormalizing weights none of which is negative returns weights none
    of which is negative. *)
Lemma renormalize_nonneg (new out : Py.dict Q) :
  Forall (fun e => 0 <= snd e) new ->
  renormalize new = Py.Ok out ->
  Forall (fun e => 0 <= snd e) out.
Proof.
  intros Hn R. unfold renormalize in R.
  pose proof (weights_sum_nonneg new Hn) as Hs.
  destruct new as [|e new'] eqn:En; [simpl in R; injection R as <-; constructor|].
  rewrite <- En in *.
  destruct (Qeq_dec (Py.sum (Py.values new)) 0) as [Z|NZ].
  - rewrite (normalize_each_zero _ _ Z) in R; [discriminate | now rewrite En].
  - rewrite (normalize_each_ok _ _ NZ) in R. injection R as <-.
    assert (Hpos : 0 < Py.sum (Py.values new)).
    { apply Qle_lteq in Hs as [Hs|Hs]; [exact Hs | now symmetry in Hs]. }
    apply Forall_map. rewrite Forall_forall in *. intros x Hx.
    unfold renorm_entry. cbn [snd]. apply round2_nonneg.
    apply Qmult_le_0_compat; [|discriminate].
    apply Qle_shift_div_l; [exact Hpos|]. rewrite Qmult_0_l. now apply Hn.
Qed.

(** X6. A returned weight can only be negative if a post-rule weight was:
    when no weight is negative after the rule loop, none is negative in the
    portfolio [apply_rebalance] returns. *)
Theorem nonnegative_post_rule_weights_stay_nonnegative :
  forall (base out : Py.dict Q) (theme : string) (x : Q),
    (forall new,
        V21.post_rule_weights base theme x = Py.Ok new ->
        Forall (fun e => 0 <= snd e) new ->
        V21.apply_rebalance base theme x = Py.Ok out ->
        Forall (fun e => 0 <= snd e) out) /\
    (forall new,
        V24E.post_rule_weights base theme x = Py.Ok new ->
        Forall (fun e => 0 <= snd e) new ->
        V24E.apply_rebalance base theme x = Py.Ok out ->
        Forall (fun e => 0 <= snd e) out) /\
    (Forall (fun e => 0 <= snd e) (V24H.post_rule_weights base theme x) ->
     V24H.apply_rebalance base theme x = Py.Ok out ->
     Forall (fun e => 0 <= snd e) out).
Proof.
  intros base out theme x. split; [|split].
  - intros new. unfold V21.post_rule_weights, V21.apply_rebalance.
    destruct (Py.get theme V21.macro_rebalance_rules) as [rule|].
    + intros ->. simpl. apply renormalize_nonneg.
    + intros [= <-] H [= <-]. exact H.
  - intros new. unfold V24E.post_rule_weights, V24E.apply_rebalance.
    intros ->. simpl. apply renormalize_nonneg.
  - unfold V24H.post_rule_weights, V24H.apply_rebalance.
    destruct (Py.get theme V24H.macro_rebalance_rules) as [rule|].
    + apply renormalize_nonneg.
    + intros H [= <-]. exact H.
Qed.

Lemma nonnegative_post_rule_weights_stay_nonnegative_witness :
  Forall (fun e => 0 <= snd e) (portfolio_of 23.26 23.26 23.26 6.98 23.26) /\
  Forall (fun e => 0 <= snd e) (portfolio_of 23.26 23.26 23.26 6.98 23.26) /\
  Forall (fun e => 0 <= snd e) (portfolio_of 23.26 23.26 23.26 6.98 23.26).
Proof.
  destruct (nonnegative_post_rule_weights_stay_nonnegative
              (portfolio_of 25 25 25 0 25) (portfolio_of 23.26 23.26 23.26 6.98 23.26)
              "crypto" (1 # 2)) as (A & _ & C).
  destruct (nonnegative_post_rule_weights_stay_nonnegative
              (portfolio_of 25 25 25 0 25) (portfolio_of 23.26 23.26 23.26 6.98 23.26)
              "crypto" 50) as (_ & B & _).
  split; [|split].
  - eapply A; [reflexivity | repeat constructor; discriminate | reflexivity].
  - eapply B; [reflexivity | repeat constructor; discriminate | reflexivity].
  - apply C; [repeat constructor; discriminate | reflexivity].
Defined.

(** After a rule of the horizon-aware table, scaled by an intensity in
    [0, 1], a form portfolio with at least 10 in every class has no
    negative weight and a positive total. *)
Lemma V24H_post_rule_sound (e b t c m : Q) (theme : string) (i : Q) :
  10 <= e -> 10 <= b -> 10 <= t -> 10 <= c -> 10 <= m -> 0 <= i <= 1 ->
  Forall (fun x => 0 <= snd x) (V24H.post_rule_weights (portfolio_of e b t c m) theme i) /\
  0 < Py.sum (Py.values (V24H.post_rule_weights (portfolio_of e b t c m) theme i)).
Proof.
  intros He Hb Ht Hc Hm [Hi0 Hi1].
  unfold V24H.post_rule_weights. cbn [Py.get V24H.macro_rebalance_rules].
  repeat (destruct (String.eqb theme _);
          [unfold portfolio_of;
           cbn [Py.get String.eqb Ascii.eqb Bool.eqb shift_present_weights Py.setitem
                Py.values map snd Py.sum fold_left];
           split; [repeat constructor; cbn [snd]; lra | lra]|]).
  unfold portfolio_of. cbn [Py.values map snd Py.sum fold_left].
  split; [repeat constructor; cbn [snd]; lra | lra].
Qed.

Lemma V24E_post_rule_sound (e b t c m : Q) (theme : string) (severity : Q) :
  12 <= e -> 12 <= b -> 12 <= t -> 12 <= c -> 12 <= m -> 0 <= severity <= 100 ->
  exists new,
    V24E.post_rule_weights (portfolio_of e b t c m) theme severity = Py.Ok new /\
    Forall (fun x => 0 <= snd x) new /\ 0 < Py.sum (Py.values new).
Proof.
  intros He Hb Ht Hc Hm [Hs0 Hs1].
  unfold V24E.post_rule_weights. cbn [Py.get V24E.rebalance_rules].
  unfold Qdiv. change (/ 100) with (1 # 100).
  repeat (destruct (String.eqb theme _);
          [unfold portfolio_of;
           cbn [Py.get Py.getitem Py.bind String.eqb Ascii.eqb Bool.eqb shift_weights
                Py.setitem];
           eexists; split; [reflexivity|];
           cbn [Py.values map snd Py.sum fold_left];
           split; [repeat constructor; cbn [snd]; lra | lra]|]).
  eexists; split; [reflexivity|].
  unfold portfolio_of. cbn [Py.values map snd Py.sum fold_left].
  split; [repeat constructor; cbn [snd]; lra | lra].
Qed.

(** X7. No short position is recommended to a portfolio that holds enough
    of every class: with at least 10 in each of the five classes and an
    intensity in [0, 1] the two lexical variants return a portfolio without
    a negative weight, for every theme; so does the embedding variant with
    at least 12 in each class and a severity in [0, 100]. *)
Theorem well_spread_portfolio_stays_long_only :
  forall (e b t c m : Q) (theme : string) (intensity severity : Q),
    (10 <= e -> 10 <= b -> 10 <= t -> 10 <= c -> 10 <= m -> 0 <= intensity <= 1 ->
     (exists out,
         V21.apply_rebalance (portfolio_of e b t c m) theme intensity = Py.Ok out /\
         Forall (fun x => 0 <= snd x) out) /\
     (exists out,
         V24H.apply_rebalance (portfolio_of e b t c m) theme intensity = Py.Ok out /\
         Forall (fun x => 0 <= snd x) out)) /\
    (12 <= e -> 12 <= b -> 12 <= t -> 12 <= c -> 12 <= m -> 0 <= severity <= 100 ->
     exists out,
       V24E.apply_rebalance (portfolio_of e b t c m) theme severity = Py.Ok out /\
       Forall (fun x => 0 <= snd x) out).
Proof.
  intros e b t c m theme intensity severity. split.
  - intros He Hb Ht Hc Hm Hi.
    destruct (V24H_post_rule_sound e b t c m theme intensity He Hb Ht Hc Hm Hi) as [N P].
    assert (H : exists out,
               V24H.apply_rebalance (portfolio_of e b t c m) theme intensity = Py.Ok out /\
               Forall (fun x => 0 <= snd x) out).
    { revert N P. unfold V24H.post_rule_weights, V24H.apply_rebalance.
      destruct (Py.get theme V24H.macro_rebalance_rules) as [rule|]; intros N P.
      - destruct (renormalize_sum _ (positive_nonzero _ P)) as (out & R & _ & _).
        exists out. split; [exact R|]. now apply renormalize_nonneg with (2 := R).
      - now exists (portfolio_of e b t c m). }
    split; [|exact H].
    now rewrite (lexical_rebalances_agree (portfolio_of e b t c m) theme intensity eq_refl).
  - intros He Hb Ht Hc Hm Hs.
    destruct (V24E_post_rule_sound e b t c m theme severity He Hb Ht Hc Hm Hs)
      as (new & E & N & P).
    unfold V24E.post_rule_weights in E. unfold V24E.apply_rebalance. rewrite E. simpl.
    destruct (renormalize_sum _ (positive_nonzero _ P)) as (out & R & _ & _).
    exists out. split; [exact R|]. now apply renormalize_nonneg with (2 := R).
Qed.

Lemma well_spread_portfolio_stays_long_only_witness :
  ((exists out,
       V21.apply_rebalance (portfolio_of 10 30 20 10 30) "currency" 1 = Py.Ok out /\
       Forall (fun x => 0 <= snd x) out) /\
   (exists out,
       V24H.apply_rebalance (portfolio_of 10 30 20 10 30) "currency" 1 = Py.Ok out /\
       Forall (fun x => 0 <= snd x) out)) /\
  (exists out,
      V24E.apply_rebalance (portfolio_of 12 28 20 12 28) "political_shock" 100 = Py.Ok out /\
      Forall (fun x => 0 <= snd x) out).
Proof.
  split.
  - apply (proj1 (well_spread_portfolio_stays_long_only 10 30 20 10 30 "currency" 1 0));
      try discriminate. split; discriminate.
  - apply (proj2 (well_spread_portfolio_stays_long_only 12 28 20 12 28 "political_shock" 0 100));
      try discriminate. split; discriminate.
Defined.

End RebalanceSigns.

(** ** More on the lexical classifiers and their scripts *)

Section Verdicts.

Lemma first_theme_none (themes : Py.dict (list string)) (text : string) :
  first_theme themes text = None <-> ~ hits themes text.
Proof.
  unfold hits. rewrite <- first_theme_some. split.
  - intros E [key H]. congruence.
  - intros H. destruct (first_theme themes text) as [key|]; [|reflexivity].
    exfalso. apply H. now exists key.
Qed.

Lemma any_in_false (words : list string) (text : string) :
  Py.any_in words text = false <->
  ~ exists w, In w words /\ Py.contains w text = true.
Proof.
  rewrite <- any_in_true. destruct (Py.any_in words text); split; intros H;
    try reflexivity; try discriminate; try (intros [=]); exfalso; now apply H.
Qed.

(** The tier of a verdict computed the way both [classify_news] bodies do,
    in terms of which keyword lists occur in the text. *)
Lemma tier_of_verdict (irrelevant : list string) (micro macro : Py.dict (list string))
    (note1 note2 : string) (text : string) :
  let verdict :=
    if Py.any_in irrelevant text then ("irrelevant", note1)
    else match first_theme micro text with
         | Some key => ("micro", key)
         | None =>
             match first_theme macro text with
             | Some key => ("macro", key)
             | None => ("irrelevant", note2)
             end
         end in
  let irr := exists w, In w irrelevant /\ Py.contains w text = true in
  (fst verdict = "micro" <-> ~ irr /\ hits micro text) /\
  (fst verdict = "macro" <-> ~ irr /\ ~ hits micro text /\ hits macro text) /\
  (fst verdict = "irrelevant" <-> irr \/ (~ hits micro text /\ ~ hits macro text)).
Proof.
  cbv zeta.
  destruct (Py.any_in irrelevant text) eqn:I;
    [apply any_in_true in I | apply any_in_false in I].
  { simpl. repeat split; try discriminate; try tauto. }
  destruct (first_theme micro text) as [k|] eqn:M.
  { assert (hits micro text) by (apply first_theme_some; eauto).
    simpl. repeat split; try discriminate; try tauto. }
  apply first_theme_none in M.
  destruct (first_theme macro text) as [k|] eqn:A.
  { assert (hits macro text) by (apply first_theme_some; eauto).
    simpl. repeat split; try discriminate; try tauto. }
  apply first_theme_none in A.
  simpl. repeat split; try discriminate; tauto.
Qed.

(** X8. Tier by keyword precedence, for both lexical classifiers: the
    verdict is micro exactly when no irrelevant keyword and some micro
    keyword occurs in the lower-cased headline; macro exactly when neither
    an irrelevant nor a micro keyword occurs and some macro keyword does;
    irrelevant in every other case. *)
Theorem classify_news_tier_by_precedence :
  forall text : string,
    ((fst (V21.classify_news text) = "micro" <->
      ~ (exists w, In w V21.irrelevant_keywords /\ Py.contains w (Py.lower text) = true) /\
      hits V21.micro_themes (Py.lower text)) /\
     (fst (V21.classify_news text) = "macro" <->
      ~ (exists w, In w V21.irrelevant_keywords /\ Py.contains w (Py.lower text) = true) /\
      ~ hits V21.micro_themes (Py.lower text) /\ hits V21.macro_themes (Py.lower text)) /\
     (fst (V21.classify_news text) = "irrelevant" <->
      (exists w, In w V21.irrelevant_keywords /\ Py.contains w (Py.lower text) = true) \/
      (~ hits V21.micro_themes (Py.lower text) /\ ~ hits V21.macro_themes (Py.lower text))))
    /\
    ((fst (V24H.classify_news text) = "micro" <->
      ~ (exists w, In w V24H.irrelevant_keywords /\ Py.contains w (Py.lower text) = true) /\
      hits V24H.micro_themes (Py.lower text)) /\
     (fst (V24H.classify_news text) = "macro" <->
      ~ (exists w, In w V24H.irrelevant_keywords /\ Py.contains w (Py.lower text) = true) /\
      ~ hits V24H.micro_themes (Py.lower text) /\ hits V24H.macro_themes (Py.lower text)) /\
     (fst (V24H.classify_news text) = "irrelevant" <->
      (exists w, In w V24H.irrelevant_keywords /\ Py.contains w (Py.lower text) = true) \/
      (~ hits V24H.micro_themes (Py.lower text) /\ ~ hits V24H.macro_themes (Py.lower text)))).
Proof.
  intros text. split.
  - apply (tier_of_verdict V21.irrelevant_keywords V21.micro_themes V21.macro_themes
             "Not market-affecting" "No macro/micro signals detected" (Py.lower text)).
  - apply (tier_of_verdict V24H.irrelevant_keywords V24H.micro_themes V24H.macro_themes
             "Local / Irrelevant News" "No macro/micro signals detected" (Py.lower text)).
Qed.

Lemma V21_verdict_cases (text : string) :
  V21.classify_news text = ("irrelevant", "Not market-affecting") \/
  V21.classify_news text = ("irrelevant", "No macro/micro signals detected") \/
  (exists key, In key (Py.keys V21.micro_themes) /\ V21.classify_news text = ("micro", key)) \/
  (exists key, In key (Py.keys V21.macro_themes) /\ V21.classify_news text = ("macro", key)).
Proof.
  unfold V21.classify_news.
  destruct (Py.any_in V21.irrelevant_keywords (Py.lower text)); [now left|].
  destruct (first_theme V21.micro_themes (Py.lower text)) as [k|] eqn:M.
  { right; right; left. exists k. split; [now apply first_theme_key in M | reflexivity]. }
  destruct (first_theme V21.macro_themes (Py.lower text)) as [k|] eqn:A.
  { right; right; right. exists k. split; [now apply first_theme_key in A | reflexivity]. }
  right; now left.
Qed.

Lemma V24H_verdict_cases (text : string) :
  V24H.classify_news text = ("irrelevant", "Local / Irrelevant News") \/
  V24H.classify_news text = ("irrelevant", "No macro/micro signals detected") \/
  (exists key, In key (Py.keys V24H.micro_themes) /\ V24H.classify_news text = ("micro", key)) \/
  (exists key, In key (Py.keys V24H.macro_themes) /\ V24H.classify_news text = ("macro", key)).
Proof.
  unfold V24H.classify_news.
  destruct (Py.any_in V24H.irrelevant_keywords (Py.lower text)); [now left|].
  destruct (first_theme V24H.micro_themes (Py.lower text)) as [k|] eqn:M.
  { right; right; left. exists k. split; [now apply first_theme_key in M | reflexivity]. }
  destruct (first_theme V24H.macro_themes (Py.lower text)) as [k|] eqn:A.
  { right; right; right. exists k. split; [now apply first_theme_key in A | reflexivity]. }
  right; now left.
Qed.

(** X9. The tables fit together: the theme of a macro verdict always has
    a rebalance rule, and that rule only names the five asset classes; the
    theme of a micro verdict never has a rule. *)
Theorem verdict_theme_and_rule_table :
  forall text theme : string,
    (V21.classify_news text = ("macro", theme) ->
     exists rule, Py.get theme V21.macro_rebalance_rules = Some rule /\
                  forall asset, In asset (Py.keys rule) -> In asset asset_classes) /\
    (V24H.classify_news text = ("macro", theme) ->
     exists rule, Py.get theme V24H.macro_rebalance_rules = Some rule /\
                  forall asset, In asset (Py.keys rule) -> In asset asset_classes) /\
    (V21.classify_news text = ("micro", theme) ->
     Py.get theme V21.macro_rebalance_rules = None) /\
    (V24H.classify_news text = ("micro", theme) ->
     Py.get theme V24H.macro_rebalance_rules = None).
Proof.
  intros text theme.
  assert (Macro : In theme (Py.keys V21.macro_themes) ->
                  exists rule, Py.get theme V21.macro_rebalance_rules = Some rule /\
                               forall asset, In asset (Py.keys rule) -> In asset asset_classes).
  { intros Hin. simpl in Hin.
    repeat (destruct Hin as [<-|Hin];
            [eexists; split; [reflexivity|]; intros asset Ha; simpl in Ha |- *; tauto|]).
    contradiction. }
  assert (Micro : In theme (Py.keys V21.micro_themes) ->
                  Py.get theme V21.macro_rebalance_rules = None).
  { intros Hin. simpl in Hin.
    repeat (destruct Hin as [<-|Hin]; [reflexivity|]). contradiction. }
  split; [|split; [|split]]; intros C.
  - destruct (V21_verdict_cases text) as [E|[E|[(k & Hk & E)|(k & Hk & E)]]];
      rewrite E in C; try discriminate. injection C as <-. now apply Macro.
  - destruct (V24H_verdict_cases text) as [E|[E|[(k & Hk & E)|(k & Hk & E)]]];
      rewrite E in C; try discriminate. injection C as <-. now apply Macro.
  - destruct (V21_verdict_cases text) as [E|[E|[(k & Hk & E)|(k & Hk & E)]]];
      rewrite E in C; try discriminate. injection C as <-. now apply Micro.
  - destruct (V24H_verdict_cases text) as [E|[E|[(k & Hk & E)|(k & Hk & E)]]];
      rewrite E in C; try discriminate. injection C as <-. now apply Micro.
Qed.

Lemma verdict_theme_and_rule_table_witness :
  (exists rule, Py.get "crypto" V21.macro_rebalance_rules = Some rule /\
                forall asset, In asset (Py.keys rule) -> In asset asset_classes) /\
  (exists rule, Py.get "crypto" V24H.macro_rebalance_rules = Some rule /\
                forall asset, In asset (Py.keys rule) -> In asset asset_classes) /\
  Py.get "earnings" V21.macro_rebalance_rules = None /\
  Py.get "earnings" V24H.macro_rebalance_rules = None.
Proof.
  destruct (verdict_theme_and_rule_table "Bitcoin surge amid crisis" "crypto")
    as (A & B & _ & _).
  destruct (verdict_theme_and_rule_table "Company X reports record quarterly earnings"
                                         "earnings") as (_ & _ & C & D).
  split; [apply A; reflexivity|]. split; [apply B; reflexivity|].
  split; [apply C; reflexivity | apply D; reflexivity].
Defined.

End Verdicts.

Section Scripts.





(** X12. In the horizon-aware script a micro verdict that passes the gate
    is shown a "rebalance" that is the input portfolio itself: no micro
    theme has a rule, so the weights are copied, neither scaled nor
    rounded. *)
Theorem V24H_micro_verdict_recommends_the_input :
  forall (equity_w bond_w etf_w crypto_w cmdty_w : Z) (horizon_years : Q)
         (headline theme : string),
    (equity_w + bond_w + etf_w + crypto_w + cmdty_w = 100)%Z ->
    V24H.classify_news headline = ("micro", theme) ->
    V24H.horizon_threshold (V24H.compute_impact_score headline) horizon_years = true ->
    V24H.main equity_w bond_w etf_w crypto_w cmdty_w horizon_years headline true
    = Rebalanced "micro" theme (V24H.compute_impact_score headline)
        (portfolio_of (inject_Z equity_w) (inject_Z bond_w) (inject_Z etf_w)
                      (inject_Z crypto_w) (inject_Z cmdty_w)).
Proof.
  intros e b t c m h headline theme S C G. unfold V24H.main.
  rewrite S. cbn [Z.eqb Pos.eqb negb andb].
  assert (T : Py.truthy headline = true)
    by (destruct headline; [discriminate C | reflexivity]).
  rewrite T, C. cbn [negb String.eqb Ascii.eqb Bool.eqb]. cbv iota.
  rewrite G. cbn [negb].
  assert (R : Py.get theme V24H.macro_rebalance_rules = None).
  { destruct (V24H_verdict_cases headline) as [E|[E|[(k & Hk & E)|(k & Hk & E)]]];
      rewrite E in C; try discriminate. injection C as <-.
    simpl in Hk. repeat (destruct Hk as [<-|Hk]; [reflexivity|]). contradiction. }
  unfold V24H.apply_rebalance. now rewrite R.
Qed.

Lemma V24H_micro_verdict_recommends_the_input_witness :
  V24H.main 40 30 10 10 10 1 "Company X reports record quarterly earnings" true
  = Rebalanced "micro" "earnings"
      (V24H.compute_impact_score "Company X reports record quarterly earnings")
      (portfolio_of (inject_Z 40) (inject_Z 30) (inject_Z 10) (inject_Z 10) (inject_Z 10)).
Proof.
  apply (V24H_micro_verdict_recommends_the_input 40 30 10 10 10 1
           "Company X reports record quarterly earnings" "earnings"); reflexivity.
Defined.

End Scripts.

(** ** More on the keyword scorers *)

Section ScoreGrowth.

Lemma lower_app (a b : string) : Py.lower (a ++ b) = Py.lower a ++ Py.lower b.
Proof. induction a as [|ch a IH]; simpl; [reflexivity | now rewrite IH]. Qed.

Lemma prefix_empty (s : string) : String.prefix "" s = true.
Proof. destruct s; reflexivity. Qed.

Lemma prefix_app (w a b : string) :
  String.prefix w a = true -> String.prefix w (a ++ b) = true.
Proof.
  revert w. induction a as [|c' a IH]; intros w; simpl.
  - destruct w; [intros _; apply prefix_empty | discriminate].
  - destruct w as [|c w]; [reflexivity|].
    destruct (Ascii.ascii_dec c c'); [apply IH | discriminate].
Qed.

Lemma contains_app_l (w a b : string) :
  Py.contains w a = true -> Py.contains w (a ++ b) = true.
Proof.
  induction a as [|c a IH].
  - simpl. rewrite orb_false_r. destruct w; [|discriminate]. intros _.
    destruct b; reflexivity.
  - intros H. cbn [Py.contains] in H. cbn [append Py.contains].
    apply orb_true_iff in H as [H|H]; apply orb_true_iff.
    + left. now apply (prefix_app w (String c a) b).
    + right. now apply IH.
Qed.

Lemma contains_app_r (w a b : string) :
  Py.contains w b = true -> Py.contains w (a ++ b) = true.
Proof.
  intros H. induction a as [|c a IH]; [exact H|].
  cbn [append Py.contains]. apply orb_true_iff. now right.
Qed.

(** A keyword sum can only grow when more keywords hit. *)
Lemma accumulate_mono (hit hit' : string -> bool) (points : Q -> Q) (table : Py.dict Q) :
  (forall w, hit w = true -> hit' w = true) ->
  Forall (fun e => 0 <= points (snd e)) table ->
  forall acc acc', acc <= acc' ->
    fold_left (fun score '(word, v) => if hit word then score + points v else score)
              table acc
    <= fold_left (fun score '(word, v) => if hit' word then score + points v else score)
                 table acc'.
Proof.
  intros Hh. induction 1 as [|[word v] table Hv _ IH]; intros acc acc' Hacc; simpl.
  - exact Hacc.
  - apply IH. simpl in Hv. destruct (hit word) eqn:E.
    + rewrite (Hh word E). generalize dependent (points v). intros; lra.
    + destruct (hit' word); [|exact Hacc].
      generalize dependent (points v). intros; lra.
Qed.

Lemma min_mono_l (a a' b : Q) : a <= a' -> Py.min a b <= Py.min a' b.
Proof.
  intros H. apply min_glb.
  - apply Qle_trans with a; [apply min_le_l | exact H].
  - apply min_le_r.
Qed.

Lemma max_mono_l (a a' b : Q) : a <= a' -> Py.max a b <= Py.max a' b.
Proof.
  intros H. unfold Py.max at 1. destruct (Py.gtb b a).
  - apply max_ge_r.
  - apply Qle_trans with a'; [exact H | apply max_ge_l].
Qed.

Lemma V21_points_nonneg : Forall (fun e => 0 <= (fun v : Q => v) (snd e)) V21.severity_weights.
Proof. unfold V21.severity_weights. repeat constructor; discriminate. Qed.

Lemma V24H_points_nonneg :
  Forall (fun e => 0 <= (fun mult => 20 * (mult - 1 + 1)) (snd e)) V24H.severity_weights.
Proof. unfold V24H.severity_weights. repeat constructor; discriminate. Qed.

(** X13. Putting more text before or after a headline never lowers its
    impact score, in either lexical scorer. *)
Theorem longer_headline_scores_no_lower :
  forall a b : string,
    V21.compute_impact_score a <= V21.compute_impact_score (a ++ b) /\
    V21.compute_impact_score b <= V21.compute_impact_score (a ++ b) /\
    V24H.compute_impact_score a <= V24H.compute_impact_score (a ++ b) /\
    V24H.compute_impact_score b <= V24H.compute_impact_score (a ++ b).
Proof.
  intros a b. unfold V21.compute_impact_score, V24H.compute_impact_score.
  rewrite !lower_app. repeat split.
  - apply min_mono_l.
    apply (accumulate_mono _ _ (fun v => v) _
             (fun w => contains_app_l w (Py.lower a) (Py.lower b)) V21_points_nonneg).
    apply Qle_refl.
  - apply min_mono_l.
    apply (accumulate_mono _ _ (fun v => v) _
             (fun w => contains_app_r w (Py.lower a) (Py.lower b)) V21_points_nonneg).
    apply Qle_refl.
  - apply min_mono_l, max_mono_l.
    apply (accumulate_mono _ _ (fun mult => 20 * (mult - 1 + 1)) _
             (fun w => contains_app_l w (Py.lower a) (Py.lower b)) V24H_points_nonneg).
    apply Qle_refl.
  - apply min_mono_l, max_mono_l.
    apply (accumulate_mono _ _ (fun mult => 20 * (mult - 1 + 1)) _
             (fun w => contains_app_r w (Py.lower a) (Py.lower b)) V24H_points_nonneg).
    apply Qle_refl.
Qed.

End ScoreGrowth.

(** ** The embedding-powered engine *)

Section Embedding.

Lemma mul_pos_mono (x y k : Q) : 0 < k -> x <= y -> x * k <= y * k.
Proof. intros Hk H. nra. Qed.

Lemma boost_mono (cond : bool) (k x y : Q) :
  0 < k -> x <= y -> (if cond then x * k else x) <= (if cond then y * k else y).
Proof. intros Hk H. destruct cond; [now apply mul_pos_mono | exact H]. Qed.

Lemma min_mono_r (a b b' : Q) : b <= b' -> Py.min a b <= Py.min a b'.
Proof.
  intros H. apply min_glb.
  - apply min_le_l.
  - apply Qle_trans with b; [apply min_le_r | exact H].
Qed.

Lemma max_mono_r (a b b' : Q) : b <= b' -> Py.max a b <= Py.max a b'.
Proof.
  intros H. unfold Py.max at 1. destruct (Py.gtb b a).
  - apply Qle_trans with b'; [exact H | apply max_ge_r].
  - apply max_ge_l.
Qed.

(** X14. The severity never decreases when the primary similarity score
    increases, all else equal. *)
Theorem severity_grows_with_primary_score :
  forall (primary_score primary_score' secondary_score : Q) (sentiment : Z)
         (horizon_years : Q),
    primary_score <= primary_score' ->
    V24E.compute_severity primary_score secondary_score sentiment horizon_years
    <= V24E.compute_severity primary_score' secondary_score sentiment horizon_years.
Proof.
  intros p p' s sent h H. unfold V24E.compute_severity.
  apply min_mono_r, max_mono_r.
  assert (H1 : p * 100 <= p' * 100) by lra.
  pose proof (boost_mono (Py.gtb s 0) 1.15 _ _ eq_refl H1) as H2.
  pose proof (boost_mono (sent <? 0)%Z 1.2 _ _ eq_refl H2) as H3.
  destruct (Py.gtb h 3); [now apply mul_pos_mono|].
  destruct (Py.ltb h 1); [now apply mul_pos_mono | exact H3].
Qed.

Lemma severity_grows_with_primary_score_witness :
  V24E.compute_severity 0.3 0 0 2 <= V24E.compute_severity 0.5 0 0 2.
Proof.
  apply (severity_grows_with_primary_score 0.3 0.5 0 0 2). discriminate.
Defined.

(** X15. For a horizon of at most one year the embedding variant's gate
    never closes: the severity floor of 20 is the gate's threshold. *)
Theorem embedding_gate_is_open_within_a_year :
  forall (primary_score secondary_score : Q) (sentiment : Z) (horizon_years : Q),
    horizon_years <= 1 ->
    V24E.horizon_threshold
      (V24E.compute_severity primary_score secondary_score sentiment horizon_years)
      horizon_years = true.
Proof.
  intros p s sent h H. unfold V24E.horizon_threshold.
  apply leb_true in H. rewrite H. apply geb_true.
  apply (V24E_severity_bounds p s sent h).
Qed.

Lemma embedding_gate_is_open_within_a_year_witness :
  V24E.horizon_threshold (V24E.compute_severity (-1) 0 5 0.1) 0.1 = true.
Proof.
  apply (embedding_gate_is_open_within_a_year (-1) 0 5 0.1). discriminate.
Defined.

Lemma first_max_spec (best : string * Q) (rest : Py.dict Q) :
  In (V24E.first_max best rest) (best :: rest) /\
  forall e, In e (best :: rest) -> snd e <= snd (V24E.first_max best rest).
Proof.
  revert best. induction rest as [|[t v] rest IH]; intros best; simpl.
  - split; [now left|]. intros e [<-|[]]. apply Qle_refl.
  - destruct (Py.gtb v (snd best)) eqn:G.
    + destruct (IH (t, v)) as [Hin Hmax]. split.
      * destruct Hin as [<-|Hin]; [right; now left | right; now right].
      * intros e [<-|[<-|He]].
        -- apply gtb_true in G. apply Qle_trans with v; [now apply Qlt_le_weak|].
           apply (Hmax (t, v)). now left.
        -- apply (Hmax (t, v)). now left.
        -- apply Hmax. now right.
    + destruct (IH best) as [Hin Hmax]. split.
      * destruct Hin as [<-|Hin]; [now left | right; now right].
      * intros e [<-|[<-|He]].
        -- apply Hmax. now left.
        -- unfold Py.gtb in G. apply negb_false_iff in G. apply Qle_bool_iff in G.
           simpl. apply Qle_trans with (snd best); [exact G|]. apply Hmax. now left.
        -- apply Hmax. now right.
Qed.

(** The secondary loop keeps the last entry that is not the primary theme
    and scores above three quarters of the primary score. *)
Lemma pick_secondary_spec (primary : string) (primary_score : Q) (sims : Py.dict Q) :
  match V24E.pick_secondary primary primary_score sims with
  | (None, score) =>
      score = 0 /\
      forall t v, In (t, v) sims -> t = primary \/ v <= 0.75 * primary_score
  | (Some t, score) =>
      t <> primary /\ 0.75 * primary_score < score /\
      exists before after,
        sims = (before ++ (t, score) :: after)%list /\
        forall t' v', In (t', v') after -> t' = primary \/ v' <= 0.75 * primary_score
  end.
Proof.
  unfold V24E.pick_secondary.
  induction sims as [|[t v] sims IH] using rev_ind.
  - simpl. split; [reflexivity | intros t v []].
  - rewrite fold_left_app. cbn [fold_left].
    destruct (negb (String.eqb t primary) && Py.gtb v (0.75 * primary_score)) eqn:C.
    + apply andb_prop in C as [C1 C2]. apply negb_true_iff, String.eqb_neq in C1.
      apply gtb_true in C2. split; [exact C1|]. split; [exact C2|].
      exists sims, []. split; [reflexivity | intros t' v' []].
    + assert (Skip : t = primary \/ v <= 0.75 * primary_score).
      { apply andb_false_iff in C as [C|C].
        - left. apply negb_false_iff in C. now apply String.eqb_eq.
        - right. unfold Py.gtb in C. apply negb_false_iff in C.
          now apply Qle_bool_iff in C. }
      destruct (fold_left _ sims (None, 0)) as [[t2|] score].
      * destruct IH as (N & G & before & after & -> & L). split; [exact N|].
        split; [exact G|]. exists before, (after ++ [(t, v)])%list. split.
        -- now rewrite <- app_assoc.
        -- intros t' v' Hin. apply in_app_or in Hin as [Hin|[[= <- <-]|[]]];
             [now apply (L t' v') | exact Skip].
      * destruct IH as [Z L]. split; [exact Z|]. intros t' v' Hin.
        apply in_app_or in Hin as [Hin|[[= <- <-]|[]]];
          [now apply (L t' v') | exact Skip].
Qed.

Lemma sims_entry (similarity : string -> Q) (themes : Py.dict string) (t : string) (v : Q) :
  In (t, v) (map (fun e => (fst e, similarity (fst e))) themes) <->
  In t (Py.keys themes) /\ v = similarity t.
Proof.
  unfold Py.keys. rewrite !in_map_iff. split.
  - intros ([k d] & [= <- <-] & Hin). split; [|reflexivity]. now exists (k, d).
  - intros (([k d] & <- & Hin) & ->). now exists (k, d).
Qed.

(** What the callers of [classify_headline] rely on. *)
Lemma classify_headline_found (similarity : string -> Q) :
  exists primary secondary secondary_score,
    V24E.classify_headline similarity
    = Some (primary, similarity primary, secondary, secondary_score) /\
    In primary (Py.keys V24E.THEMES) /\
    match secondary with
    | None => secondary_score = 0
    | Some _ => 0.75 * similarity primary < secondary_score
    end.
Proof.
  set (sims := map (fun e => (fst e, similarity (fst e))) V24E.THEMES).
  assert (Hs : V24E.classify_headline similarity =
               let '(primary, primary_score) := V24E.first_max (hd ("", 0) sims) (tl sims) in
               let '(secondary, secondary_score) :=
                 V24E.pick_secondary primary primary_score sims in
               Some (primary, primary_score, secondary, secondary_score))
    by reflexivity.
  rewrite Hs. clear Hs.
  destruct (first_max_spec (hd ("", 0) sims) (tl sims)) as [Hin _].
  change (hd ("", 0) sims :: tl sims) with sims in Hin.
  destruct (V24E.first_max (hd ("", 0) sims) (tl sims)) as [primary ps].
  apply sims_entry in Hin as [Hp ->].
  pose proof (pick_secondary_spec primary (similarity primary) sims) as S.
  destruct (V24E.pick_secondary primary (similarity primary) sims) as [[t2|] ss].
  - destruct S as (_ & G & _). exists primary, (Some t2), ss. auto.
  - destruct S as [Z _]. exists primary, None, ss. auto.
Qed.

(** X16. [classify_headline] always finds a primary theme: a theme of the
    table whose similarity no other theme exceeds.  The secondary theme, if
    any, is another theme of the table scoring above 0.75 times the primary
    score, and it is the last such theme in table order; when there is none
    the secondary score is 0. *)
Theorem classify_headline_primary_and_secondary :
  forall similarity : string -> Q,
  exists primary secondary secondary_score,
    V24E.classify_headline similarity
    = Some (primary, similarity primary, secondary, secondary_score) /\
    In primary (Py.keys V24E.THEMES) /\
    (forall t, In t (Py.keys V24E.THEMES) -> similarity t <= similarity primary) /\
    match secondary with
    | None =>
        secondary_score = 0 /\
        forall t, In t (Py.keys V24E.THEMES) ->
                  t = primary \/ similarity t <= 0.75 * similarity primary
    | Some t2 =>
        In t2 (Py.keys V24E.THEMES) /\ t2 <> primary /\
        secondary_score = similarity t2 /\
        0.75 * similarity primary < similarity t2 /\
        exists before after,
          Py.keys V24E.THEMES = (before ++ t2 :: after)%list /\
          forall t, In t after -> t = primary \/ similarity t <= 0.75 * similarity primary
    end.
Proof.
  intros similarity.
  set (sims := map (fun e => (fst e, similarity (fst e))) V24E.THEMES).
  assert (Hs : V24E.classify_headline similarity =
               let '(primary, primary_score) := V24E.first_max (hd ("", 0) sims) (tl sims) in
               let '(secondary, secondary_score) :=
                 V24E.pick_secondary primary primary_score sims in
               Some (primary, primary_score, secondary, secondary_score))
    by reflexivity.
  rewrite Hs. clear Hs.
  destruct (first_max_spec (hd ("", 0) sims) (tl sims)) as [Hin Hmax].
  change (hd ("", 0) sims :: tl sims) with sims in Hin, Hmax.
  destruct (V24E.first_max (hd ("", 0) sims) (tl sims)) as [primary ps].
  apply sims_entry in Hin as [Hp ->].
  pose proof (pick_secondary_spec primary (similarity primary) sims) as S.
  destruct (V24E.pick_secondary primary (similarity primary) sims) as [[t2|] ss].
  - destruct S as (N & G & before & after & E & L).
    assert (Hin2 : In (t2, ss) sims) by (rewrite E; apply in_elt).
    apply sims_entry in Hin2 as [Ht2 ->].
    exists primary, (Some t2), (similarity t2). split; [reflexivity|].
    split; [exact Hp|]. split.
    { intros t Ht. apply (Hmax (t, similarity t)). apply sims_entry. now split. }
    split; [exact Ht2|]. split; [exact N|]. split; [reflexivity|]. split; [exact G|].
    exists (map fst before), (map fst after). split.
    + unfold Py.keys.
      replace (map fst V24E.THEMES) with (map fst sims)
        by (unfold sims; rewrite map_map; reflexivity).
      rewrite E, map_app. reflexivity.
    + intros t Ht. apply in_map_iff in Ht as ([t' v'] & <- & Hin').
      assert (Hs' : In (t', v') sims) by (rewrite E; apply in_or_app; right; now right).
      apply sims_entry in Hs' as [_ ->]. now apply (L t' (similarity t')).
  - destruct S as [Z L]. exists primary, None, ss. subst ss.
    split; [reflexivity|]. split; [exact Hp|]. split.
    { intros t Ht. apply (Hmax (t, similarity t)). apply sims_entry. now split. }
    split; [reflexivity|]. intros t Ht. apply (L t (similarity t)).
    apply sims_entry. now split.
Qed.


(** X17. With a positive primary score, the multi-theme boost of
    [compute_severity] (its test [secondary_score > 0]) fires exactly when
    [classify_headline] found a secondary theme. *)
Theorem boost_fires_iff_secondary_found :
  forall (similarity : string -> Q) (primary : string) (primary_score : Q)
         (secondary : option string) (secondary_score : Q),
    V24E.classify_headline similarity
    = Some (primary, primary_score, secondary, secondary_score) ->
    0 < primary_score ->
    (Py.gtb secondary_score 0 = true <-> secondary <> None).
Proof.
  intros similarity primary ps secondary ss E Hpos.
  destruct (classify_headline_found similarity) as (p & s & sc & E' & _ & S).
  rewrite E' in E. injection E as <- <- <- <-.
  rewrite gtb_true. destruct s as [t2|].
  - split; [discriminate|]. intros _. lra.
  - subst sc. split; [intros H; now apply Qlt_irrefl in H | congruence].
Qed.

Lemma boost_fires_iff_secondary_found_witness :
  Py.gtb 0.5 0 = true <-> Some "commodities" <> None.
Proof.
  apply (boost_fires_iff_secondary_found
           (fun t => if String.eqb t "energy" then 0.6
                     else if String.eqb t "commodities" then 0.5 else 0.1)
           "energy" 0.6 (Some "commodities") 0.5); reflexivity.
Defined.






End Embedding.

(** ** The v0.1 demo *)

Section EqualWeight.

Lemma sum_constant {A : Type} (w : Q) (l : list A) :
  Py.sum (map (fun _ => w) l) == inject_Z (Z.of_nat (List.length l)) * w.
Proof.
  induction l as [|a l IH]; cbn [map List.length].
  - unfold Py.sum. simpl. ring.
  - rewrite sum_cons, IH, Nat2Z.inj_succ, <- Z.add_1_r, inject_Z_plus.
    change (inject_Z 1) with 1. ring.
Qed.

Lemma length_nonzero {A : Type} (l : list A) :
  l <> [] -> ~ inject_Z (Z.of_nat (List.length l)) == 0.
Proof.
  intros H E. destruct l as [|a l]; [contradiction|].
  unfold Qeq in E. cbn [Qnum Qden inject_Z List.length] in E. lia.
Qed.

(** X19. [create_equal_weight_portfolio] fails with a division by zero
    on an empty asset list.  Otherwise it returns one row per asset, in
    order, each with weight 1/n and allocation capital * weight; the
    weights add up to 1 and the allocations to the capital. *)
Theorem equal_weight_portfolio_is_a_partition :
  forall (assets : list string) (capital : Q),
    (assets = [] ->
     V01.create_equal_weight_portfolio assets capital = Py.Raise Py.ZeroDivisionError) /\
    (assets <> [] ->
     exists df,
       V01.create_equal_weight_portfolio assets capital = Py.Ok df /\
       map V01.Asset df = assets /\
       Forall (fun r => V01.Weight r = 1 / inject_Z (Z.of_nat (List.length assets)) /\
                        V01.Allocation r = capital * V01.Weight r) df /\
       Py.sum (map V01.Weight df) == 1 /\
       Py.sum (map V01.Allocation df) == capital).
Proof.
  intros assets capital. split.
  - intros ->. reflexivity.
  - intros H. unfold V01.create_equal_weight_portfolio.
    pose proof (length_nonzero assets H) as NZ.
    rewrite (div_nonzero _ _ NZ). simpl.
    set (n := inject_Z (Z.of_nat (List.length assets))) in *.
    eexists. split; [reflexivity|]. split; [|split; [|split]].
    + rewrite map_map. simpl. apply map_id.
    + apply Forall_map. simpl. apply Forall_forall. auto.
    + rewrite map_map. simpl. rewrite sum_constant. fold n. now field.
    + rewrite map_map. simpl. rewrite sum_constant. fold n. now field.
Qed.

Lemma equal_weight_portfolio_is_a_partition_witness :
  V01.create_equal_weight_portfolio [] 10000 = Py.Raise Py.ZeroDivisionError /\
  exists df,
    V01.create_equal_weight_portfolio ["SPY"; "IEF"; "GLD"] 10000 = Py.Ok df /\
    map V01.Asset df = ["SPY"; "IEF"; "GLD"] /\
    Forall (fun r => V01.Weight r
                     = 1 / inject_Z (Z.of_nat (List.length ["SPY"; "IEF"; "GLD"])) /\
                     V01.Allocation r = 10000 * V01.Weight r) df /\
    Py.sum (map V01.Weight df) == 1 /\
    Py.sum (map V01.Allocation df) == 10000.
Proof.
  split.
  - apply (proj1 (equal_weight_portfolio_is_a_partition [] 10000)). reflexivity.
  - apply (proj2 (equal_weight_portfolio_is_a_partition ["SPY"; "IEF"; "GLD"] 10000)).
    discriminate.
Defined.

Lemma simulated_cluster_in_range (randint_0_8 : Z) (text : string) :
  (0 <= randint_0_8 < 8)%Z ->
  (0 <= V01.simulate_macro_cluster randint_0_8 text < 8)%Z.
Proof.
  intros H. unfold V01.simulate_macro_cluster.
  destruct (first_theme V01.keywords (Py.lower text)) as [id|] eqn:E; [|exact H].
  apply first_theme_key in E. simpl in E.
  repeat (destruct E as [<-|E]; [lia|]). contradiction.
Qed.

End EqualWeight.

Section Suggestion.

Lemma index_in_range {A : Type} (l : list A) (i : Z) :
  (0 <= i < Z.of_nat (List.length l))%Z ->
  exists a, Py.index l i = Py.Ok a /\ In a l.
Proof.
  intros H. unfold Py.index.
  destruct (i <? 0)%Z eqn:N; [apply Z.ltb_lt in N; lia|]. rewrite N.
  destruct (nth_error l (Z.to_nat i)) as [a|] eqn:E.
  - exists a. split; [reflexivity | now apply nth_error_In in E].
  - apply nth_error_None in E. lia.
Qed.

Lemma index_out_of_range {A : Type} (l : list A) (i : Z) :
  (i < - Z.of_nat (List.length l) \/ Z.of_nat (List.length l) <= i)%Z ->
  Py.index l i = Py.Raise Py.IndexError.
Proof.
  intros H. unfold Py.index.
  destruct (i <? 0)%Z eqn:N; [apply Z.ltb_lt in N | apply Z.ltb_ge in N].
  - destruct (Z.of_nat (List.length l) + i <? 0)%Z eqn:M; [reflexivity|].
    apply Z.ltb_ge in M. lia.
  - rewrite (proj2 (Z.ltb_ge i 0) N).
    destruct (nth_error l (Z.to_nat i)) as [a|] eqn:E; [|reflexivity].
    assert (nth_error l (Z.to_nat i) <> None) by congruence.
    apply nth_error_Some in H0. lia.
Qed.

(** Every row of the sensitivity matrix has eight directions, each -1, 0
    or 1. *)
Lemma sensitivity_row (asset : string) (directions : list Z) :
  Py.get asset V01.sensitivity = Some directions ->
  List.length directions = 8%nat /\ Forall (fun d => (-1 <= d <= 1)%Z) directions.
Proof.
  cbn [Py.get V01.sensitivity].
  repeat (destruct (String.eqb asset _);
          [intros [= <-]; split; [reflexivity | repeat constructor; lia]|]).
  discriminate.
Qed.

(** The [iterrows] loop keeps assets and allocations and moves each
    weight by at most 0.03. *)
Lemma shift_rows_spec (cluster_id : Z) (df df' : list V01.row) :
  V01.shift_rows cluster_id df = Py.Ok df' ->
  Forall2 (fun r r' => V01.Asset r' = V01.Asset r /\
                       V01.Allocation r' = V01.Allocation r /\
                       V01.Weight r - 0.03 <= V01.Weight r' <= V01.Weight r + 0.03)
          df df'.
Proof.
  revert df'. induction df as [|r df IH]; intros df'; cbn [V01.shift_rows].
  - intros [= <-]. constructor.
  - destruct (Py.get (V01.Asset r) V01.sensitivity) as [dirs|] eqn:G.
    + destruct (Py.index dirs cluster_id) as [d|] eqn:I; cbn [Py.bind]; [|discriminate].
      destruct (V01.shift_rows cluster_id df) as [rest|]; cbn [Py.bind]; [|discriminate].
      intros [= <-]. constructor; [|now apply IH]. simpl.
      split; [reflexivity|]. split; [reflexivity|].
      assert (B : (-1 <= d <= 1)%Z).
      { apply sensitivity_row in G as [_ F]. rewrite Forall_forall in F. apply F.
        unfold Py.index in I.
        destruct ((if (cluster_id <? 0)%Z then _ else _) <? 0)%Z; [discriminate|].
        destruct (nth_error dirs _) eqn:N; [|discriminate].
        injection I as <-. now apply nth_error_In in N. }
      destruct B as [B1 B2]. rewrite Zle_Qle in B1. rewrite Zle_Qle in B2.
      change (inject_Z (-1)) with (-1) in B1. change (inject_Z 1) with 1 in B2.
      clear -B1 B2. generalize dependent (inject_Z d).
      generalize (V01.Weight r). intros; lra.
    + cbn [Py.bind]. destruct (V01.shift_rows cluster_id df) as [rest|]; cbn [Py.bind]; [|discriminate].
      intros [= <-]. constructor; [|now apply IH].
      split; [reflexivity|]. split; [reflexivity|].
      generalize dependent (V01.Weight r). intros; lra.
Qed.

Lemma shift_rows_completes (cluster_id : Z) (df : list V01.row) :
  (0 <= cluster_id < 8)%Z -> exists df', V01.shift_rows cluster_id df = Py.Ok df'.
Proof.
  intros H. induction df as [|r df [rest IH]]; cbn [V01.shift_rows]; [eauto|].
  rewrite IH. destruct (Py.get (V01.Asset r) V01.sensitivity) as [dirs|] eqn:G.
  - apply sensitivity_row in G as [L _].
    destruct (index_in_range dirs cluster_id) as [d [-> _]]; [rewrite L; lia|].
    cbn [Py.bind]. eauto.
  - cbn [Py.bind]. eauto.
Qed.

Lemma shift_rows_index_error (cluster_id : Z) (df : list V01.row) :
  (cluster_id < -8 \/ 8 <= cluster_id)%Z ->
  (exists r, In r df /\ Py.mem (V01.Asset r) V01.sensitivity = true) ->
  V01.shift_rows cluster_id df = Py.Raise Py.IndexError.
Proof.
  intros H. induction df as [|r df IH]; intros (r0 & Hin & Hm); [destruct Hin|].
  cbn [V01.shift_rows]. unfold Py.mem in *.
  destruct (Py.get (V01.Asset r) V01.sensitivity) as [dirs|] eqn:G.
  - apply sensitivity_row in G as [L _].
    rewrite (index_out_of_range dirs cluster_id); [reflexivity | rewrite L; lia].
  - cbn [Py.bind]. destruct Hin as [<-|Hin]; [rewrite G in Hm; discriminate|].
    rewrite IH; [reflexivity | eauto].
Qed.





Lemma cluster_name_found (cluster_id : Z) :
  (0 <= cluster_id < 8)%Z ->
  exists theme, Py.getitem_int cluster_id V01.cluster_names = Py.Ok theme.
Proof.
  intros H.
  assert (C : (cluster_id = 0 \/ cluster_id = 1 \/ cluster_id = 2 \/ cluster_id = 3 \/
               cluster_id = 4 \/ cluster_id = 5 \/ cluster_id = 6 \/ cluster_id = 7)%Z)
    by lia.
  repeat (destruct C as [->|C]; [eexists; reflexivity|]). subst. eexists; reflexivity.
Qed.

(** X20. [simulate_macro_cluster] returns one of the eight cluster ids
    whenever the fallback draw is one, so the lookups it feeds, the theme
    name and the column of the sensitivity matrix, both succeed. *)
Theorem simulated_cluster_is_one_of_eight :
  forall (randint_0_8 : Z) (text : string),
    (0 <= randint_0_8 < 8)%Z ->
    (0 <= V01.simulate_macro_cluster randint_0_8 text < 8)%Z /\
    (exists theme,
        Py.getitem_int (V01.simulate_macro_cluster randint_0_8 text) V01.cluster_names
        = Py.Ok theme) /\
    (forall asset directions,
        Py.get asset V01.sensitivity = Some directions ->
        exists d, Py.index directions (V01.simulate_macro_cluster randint_0_8 text)
                  = Py.Ok d).
Proof.
  intros draw text H.
  pose proof (simulated_cluster_in_range draw text H) as Hc.
  split; [exact Hc|]. split.
  - now apply cluster_name_found.
  - intros asset directions G. apply sensitivity_row in G as [L _].
    destruct (index_in_range directions (V01.simulate_macro_cluster draw text))
      as (d & E & _); [rewrite L; lia | eauto].
Qed.

Lemma simulated_cluster_is_one_of_eight_witness :
  (0 <= V01.simulate_macro_cluster 7 "Treasury yields climb" < 8)%Z /\
  (exists theme,
      Py.getitem_int (V01.simulate_macro_cluster 7 "Treasury yields climb")
                     V01.cluster_names = Py.Ok theme) /\
  (forall asset directions,
      Py.get asset V01.sensitivity = Some directions ->
      exists d, Py.index directions (V01.simulate_macro_cluster 7 "Treasury yields climb")
                = Py.Ok d).
Proof.
  apply (simulated_cluster_is_one_of_eight 7 "Treasury yields climb"). lia.
Defined.

End Suggestion.

Section SuggestionErrors.

Lemma shift_rows_unknown (cluster_id : Z) (df : list V01.row) :
  (forall r, In r df -> Py.mem (V01.Asset r) V01.sensitivity = false) ->
  V01.shift_rows cluster_id df = Py.Ok df.
Proof.
  induction df as [|r df IH]; intros H; cbn [V01.shift_rows]; [reflexivity|].
  pose proof (H r (or_introl eq_refl)) as Hr. unfold Py.mem in Hr.
  destruct (Py.get (V01.Asset r) V01.sensitivity); [discriminate|].
  cbn [Py.bind]. rewrite IH; [reflexivity|]. intros r' Hr'. apply H. now right.
Qed.

Lemma generate_after_shift (capital : Q) (cluster_id : Z) (df rows : list V01.row) :
  V01.shift_rows cluster_id df = Py.Ok rows ->
  exists res, V01.generate_suggested_portfolio capital cluster_id df = Py.Ok res.
Proof.
  intros S. unfold V01.generate_suggested_portfolio. rewrite S. cbn [Py.bind].
  match goal with |- context [Qeq_bool ?t 0] => destruct (Qeq_bool t 0) end; eauto.
Qed.

(** X22. [generate_suggested_portfolio] and the cluster id.  With an id
    from 0 to 7 it always returns.  With an id below -8 or above 7 it
    raises [IndexError] as soon as the frame holds an asset of the
    sensitivity matrix; a frame of unknown assets only is never indexed
    and always returns. *)
Theorem suggestion_raises_only_index_error_off_range :
  forall (capital : Q) (cluster_id : Z) (df : list V01.row),
    ((0 <= cluster_id < 8)%Z ->
     exists res, V01.generate_suggested_portfolio capital cluster_id df = Py.Ok res) /\
    ((cluster_id < -8 \/ 8 <= cluster_id)%Z ->
     (exists r, In r df /\ Py.mem (V01.Asset r) V01.sensitivity = true) ->
     V01.generate_suggested_portfolio capital cluster_id df = Py.Raise Py.IndexError) /\
    ((forall r, In r df -> Py.mem (V01.Asset r) V01.sensitivity = false) ->
     exists res, V01.generate_suggested_portfolio capital cluster_id df = Py.Ok res).
Proof.
  intros capital cluster_id df. split; [|split].
  - intros H. destruct (shift_rows_completes cluster_id df H) as [rows S].
    now apply generate_after_shift with rows.
  - intros H K. unfold V01.generate_suggested_portfolio.
    now rewrite (shift_rows_index_error cluster_id df H K).
  - intros H. apply generate_after_shift with df. now apply shift_rows_unknown.
Qed.

Lemma suggestion_raises_only_index_error_off_range_witness :
  (exists res, V01.generate_suggested_portfolio 10000 7
                 [V01.mk_row "SPY" (1 # 2) 5000; V01.mk_row "GLD" (1 # 2) 5000]
               = Py.Ok res) /\
  V01.generate_suggested_portfolio 10000 8
    [V01.mk_row "SPY" (1 # 2) 5000; V01.mk_row "GLD" (1 # 2) 5000]
  = Py.Raise Py.IndexError /\
  (exists res, V01.generate_suggested_portfolio 10000 8
                 [V01.mk_row "TSLA" (1 # 2) 5000; V01.mk_row "NVDA" (1 # 2) 5000]
               = Py.Ok res).
Proof.
  split; [|split].
  - apply (proj1 (suggestion_raises_only_index_error_off_range 10000 7
                    [V01.mk_row "SPY" (1 # 2) 5000; V01.mk_row "GLD" (1 # 2) 5000])).
    lia.
  - apply (proj1 (proj2 (suggestion_raises_only_index_error_off_range 10000 8
                    [V01.mk_row "SPY" (1 # 2) 5000; V01.mk_row "GLD" (1 # 2) 5000]))).
    + lia.
    + exists (V01.mk_row "SPY" (1 # 2) 5000). split; [now left | reflexivity].
  - apply (proj2 (proj2 (suggestion_raises_only_index_error_off_range 10000 8
                    [V01.mk_row "TSLA" (1 # 2) 5000; V01.mk_row "NVDA" (1 # 2) 5000]))).
    intros r [<-|[<-|[]]]; reflexivity.
Defined.

Lemma sum_positive (xs : list Q) :
  xs <> [] -> Forall (fun x => 0 < x) xs -> 0 < Py.sum xs.
Proof.
  intros Hne H. destruct H as [|x xs Hx Hxs]; [contradiction|].
  rewrite sum_cons.
  assert (0 <= Py.sum xs).
  { apply sum_nonneg. apply Forall_impl with (2 := Hxs). intros a. apply Qlt_le_weak. }
  generalize dependent (Py.sum xs). intros; lra.
Qed.

Lemma clip_lower_0_positive (w : Q) : 0 < w -> V01.clip_lower_0 w = w.
Proof.
  intros H. unfold V01.clip_lower_0. destruct (Py.ltb w 0) eqn:E; [|reflexivity].
  apply ltb_true in E. lra.
Qed.

(** When every weight of a non-empty frame exceeds 0.03 and the cluster
    id is one of the eight, a suggestion exists and keeps every weight
    positive. *)
Lemma generate_keeps_positive (capital : Q) (cluster_id : Z) (df : list V01.row) :
  (0 <= cluster_id < 8)%Z -> df <> [] ->
  Forall (fun r => 0.03 < V01.Weight r) df ->
  exists out,
    V01.generate_suggested_portfolio capital cluster_id df = Py.Ok (Some out) /\
    Forall (fun r => 0 < V01.Weight r) out.
Proof.
  intros Hc Hne Hw.
  destruct (shift_rows_completes cluster_id df Hc) as [rows S].
  pose proof (shift_rows_spec cluster_id df rows S) as F.
  assert (Hrows : rows <> [] /\ Forall (fun r => 0 < V01.Weight r) rows).
  { clear S. induction F as [|r r' df rows (_ & _ & B & _) F IH]; [contradiction|].
    split; [discriminate|]. inversion Hw as [|? ? Hr Hrest]; subst.
    constructor.
    - generalize dependent (V01.Weight r'). generalize dependent (V01.Weight r).
      intros; lra.
    - destruct df as [|r0 df]; [inversion F; constructor|].
      apply IH; [discriminate | exact Hrest]. }
  destruct Hrows as [Rne Rpos].
  unfold V01.generate_suggested_portfolio. rewrite S. cbn [Py.bind].
  set (clipped := map (fun r => V01.mk_row (V01.Asset r)
                                  (V01.clip_lower_0 (V01.Weight r))
                                  (V01.Allocation r)) rows).
  assert (Cpos : Forall (fun r => 0 < V01.Weight r) clipped).
  { unfold clipped. apply Forall_map. simpl.
    apply Forall_impl with (2 := Rpos). intros r Hr.
    now rewrite (clip_lower_0_positive _ Hr). }
  assert (Tpos : 0 < Py.sum (map V01.Weight clipped)).
  { apply sum_positive.
    - unfold clipped. destruct rows; [contradiction | discriminate].
    - now apply Forall_map. }
  destruct (Qeq_bool (Py.sum (map V01.Weight clipped)) 0) eqn:E.
  { apply Qeq_bool_iff in E. rewrite E in Tpos. now apply Qlt_irrefl in Tpos. }
  eexists. split; [reflexivity|].
  apply Forall_map, Forall_map. simpl.
  apply Forall_impl with (2 := Cpos). intros r Hr.
  apply Qlt_shift_div_l; [exact Tpos|]. now rewrite Qmult_0_l.
Qed.

End SuggestionErrors.

Section DemoPage.

Lemma instruments_ok (allowed_assets : list string) :
  (forall a, In a allowed_assets -> Py.mem a V01.asset_mapping = true) ->
  exists ins, V01.instruments allowed_assets = Py.Ok ins /\
              List.length ins = List.length allowed_assets.
Proof.
  induction allowed_assets as [|a rest IH]; intros H; cbn [V01.instruments]; [eauto|].
  pose proof (H a (or_introl eq_refl)) as Ha. unfold Py.mem, Py.getitem in *.
  destruct (Py.get a V01.asset_mapping) as [i|]; [|discriminate]. cbn [Py.bind].
  destruct IH as (ins & -> & L); [intros a' Ha'; apply H; now right|].
  cbn [Py.bind]. exists (i :: ins). split; [reflexivity | simpl; now rewrite L].
Qed.

Lemma instruments_key_error (allowed_assets : list string) :
  (exists a, In a allowed_assets /\ Py.mem a V01.asset_mapping = false) ->
  exists a, In a allowed_assets /\ Py.mem a V01.asset_mapping = false /\
            V01.instruments allowed_assets = Py.Raise (Py.KeyError a).
Proof.
  induction allowed_assets as [|a rest IH]; intros (a0 & Hin & Hm); [destruct Hin|].
  cbn [V01.instruments]. unfold Py.getitem.
  destruct (Py.get a V01.asset_mapping) as [i|] eqn:G; cbn [Py.bind].
  - destruct Hin as [<-|Hin]; [unfold Py.mem in Hm; rewrite G in Hm; discriminate|].
    destruct IH as (a1 & Hin1 & Hm1 & ->); [eauto|].
    exists a1. split; [now right|]. split; [exact Hm1 | reflexivity].
  - exists a. split; [now left|]. split; [unfold Py.mem; now rewrite G | reflexivity].
Qed.

Lemma equal_share_exceeds_shift (n : nat) :
  (1 <= n <= 33)%nat -> 0.03 < 1 / inject_Z (Z.of_nat n).
Proof.
  intros [H1 H33].
  assert (L : 1 <= inject_Z (Z.of_nat n)).
  { change 1 with (inject_Z 1). rewrite <- Zle_Qle. lia. }
  assert (U : inject_Z (Z.of_nat n) <= 33).
  { change 33 with (inject_Z 33). rewrite <- Zle_Qle. lia. }
  apply Qlt_shift_div_l; generalize dependent (inject_Z (Z.of_nat n)); intros; lra.
Qed.

(** X23. The v0.1 page.  With no asset class selected the script breaks
    with a division by zero before it looks at the headline; a label
    outside the mapping breaks it with [KeyError].  With 1 to 33 mapped
    labels it builds an equal-weight frame whose weights add up to 1, waits
    while the headline is empty, and otherwise shows a suggestion in which
    every asset keeps a positive weight. *)
Theorem V01_page_outcomes :
  forall (capital : Q) (allowed_assets : list string) (headline : string)
         (randint_0_8 : Z),
    (allowed_assets = [] ->
     V01.main capital allowed_assets headline randint_0_8
     = V01.Broken Py.ZeroDivisionError) /\
    ((exists a, In a allowed_assets /\ Py.mem a V01.asset_mapping = false) ->
     exists a, In a allowed_assets /\ Py.mem a V01.asset_mapping = false /\
               V01.main capital allowed_assets headline randint_0_8
               = V01.Broken (Py.KeyError a)) /\
    ((1 <= List.length allowed_assets <= 33)%nat ->
     (forall a, In a allowed_assets -> Py.mem a V01.asset_mapping = true) ->
     (0 <= randint_0_8 < 8)%Z ->
     exists current_portfolio,
       List.length current_portfolio = List.length allowed_assets /\
       Py.sum (map V01.Weight current_portfolio) == 1 /\
       ((headline = "" /\
         V01.main capital allowed_assets headline randint_0_8
         = V01.AwaitingHeadline current_portfolio) \/
        (headline <> "" /\
         exists theme suggested,
           V01.main capital allowed_assets headline randint_0_8
           = V01.Interpreted current_portfolio theme
               (V01.simulate_macro_cluster randint_0_8 headline) (Some suggested) /\
           Forall (fun r => 0 < V01.Weight r) suggested))).
Proof.
  intros capital allowed headline draw. split; [|split].
  - intros ->. reflexivity.
  - intros H. destruct (instruments_key_error allowed H) as (a & Hin & Hm & E).
    exists a. split; [exact Hin|]. split; [exact Hm|].
    unfold V01.main. now rewrite E.
  - intros [L1 L33] Hmap Hdraw.
    destruct (instruments_ok allowed Hmap) as (ins & E & L).
    unfold V01.main. rewrite E. cbn [Py.bind].
    assert (Hne : ins <> []) by (destruct ins; [simpl in L; lia | discriminate]).
    unfold V01.create_equal_weight_portfolio.
    rewrite (div_nonzero _ _ (length_nonzero ins Hne)). cbn [Py.bind].
    set (w := 1 / inject_Z (Z.of_nat (List.length ins))).
    set (cur := map (fun a => V01.mk_row a w (capital * w)) ins).
    assert (Hw : 0.03 < w) by (apply equal_share_exceeds_shift; lia).
    exists cur. split; [unfold cur; now rewrite length_map|]. split.
    { unfold cur. rewrite map_map. simpl. rewrite sum_constant. unfold w.
      field. now apply length_nonzero. }
    destruct headline as [|ch rest] eqn:Eh; [left; now split|].
    right. split; [discriminate|]. rewrite <- Eh. cbn [Py.truthy].
    assert (T : Py.truthy headline = true) by now rewrite Eh.
    rewrite T.
    pose proof (simulated_cluster_in_range draw headline Hdraw) as Hc.
    destruct (cluster_name_found _ Hc) as [theme ->]. cbn [Py.bind].
    destruct (generate_keeps_positive capital
                (V01.simulate_macro_cluster draw headline) cur Hc) as (sug & -> & P).
    + unfold cur. destruct ins; [contradiction | discriminate].
    + unfold cur. apply Forall_map. simpl. apply Forall_forall. auto.
    + cbn [Py.bind]. now exists theme, sug.
Qed.

Lemma V01_page_outcomes_witness :
  V01.main 10000 [] "Oil shock" 3 = V01.Broken Py.ZeroDivisionError /\
  (exists a, In a ["Gold"] /\ Py.mem a V01.asset_mapping = false /\
             V01.main 10000 ["Gold"] "Oil shock" 3 = V01.Broken (Py.KeyError a)) /\
  (exists current_portfolio,
      List.length current_portfolio = List.length ["Equities (SPY)"; "Commodities (GLD)"] /\
      Py.sum (map V01.Weight current_portfolio) == 1 /\
      (("Oil shock" = "" /\
        V01.main 10000 ["Equities (SPY)"; "Commodities (GLD)"] "Oil shock" 3
        = V01.AwaitingHeadline current_portfolio) \/
       ("Oil shock" <> "" /\
        exists theme suggested,
          V01.main 10000 ["Equities (SPY)"; "Commodities (GLD)"] "Oil shock" 3
          = V01.Interpreted current_portfolio theme
              (V01.simulate_macro_cluster 3 "Oil shock") (Some suggested) /\
          Forall (fun r => 0 < V01.Weight r) suggested))).
Proof.
  split; [|split].
  - apply (proj1 (V01_page_outcomes 10000 [] "Oil shock" 3)). reflexivity.
  - apply (proj1 (proj2 (V01_page_outcomes 10000 ["Gold"] "Oil shock" 3))).
    exists "Gold". split; [now left | reflexivity].
  - apply (proj2 (proj2 (V01_page_outcomes 10000
                           ["Equities (SPY)"; "Commodities (GLD)"] "Oil shock" 3))).
    + simpl. lia.
    + intros a [<-|[<-|[]]]; reflexivity.
    + lia.
Defined.

End DemoPage.

(** ** Letter case and sentiment *)

Section CaseAndSentiment.

Lemma lower_char_idempotent (c : ascii) : Py.lower_char (Py.lower_char c) = Py.lower_char c.
Proof.
  destruct c as [[] [] [] [] [] [] [] []]; reflexivity.
Qed.

Lemma lower_idempotent (s : string) : Py.lower (Py.lower s) = Py.lower s.
Proof.
  induction s as [|c s IH]; simpl; [reflexivity|].
  now rewrite lower_char_idempotent, IH.
Qed.

(** X24. The lexical classifiers and scorers ignore letter case: a
    headline and its lower-cased form get the same verdict and the same
    impact score. *)
Theorem lexical_pipeline_ignores_case :
  forall text : string,
    V21.classify_news (Py.lower text) = V21.classify_news text /\
    V24H.classify_news (Py.lower text) = V24H.classify_news text /\
    V21.compute_impact_score (Py.lower text) = V21.compute_impact_score text /\
    V24H.compute_impact_score (Py.lower text) = V24H.compute_impact_score text /\
    V24E.compute_sentiment (Py.lower text) = V24E.compute_sentiment text.
Proof.
  intros text.
  unfold V21.classify_news, V24H.classify_news, V21.compute_impact_score,
    V24H.compute_impact_score, V24E.compute_sentiment.
  rewrite !lower_idempotent. repeat split; reflexivity.
Qed.

Lemma filter_length_le {A : Type} (f : A -> bool) (l : list A) :
  (List.length (filter f l) <= List.length l)%nat.
Proof.
  induction l as [|a l IH]; simpl; [lia|]. destruct (f a); simpl; lia.
Qed.

Lemma filter_none {A : Type} (f : A -> bool) (l : list A) :
  (forall a, In a l -> f a = false) -> filter f l = [].
Proof.
  induction l as [|a l IH]; intros H; simpl; [reflexivity|].
  rewrite (H a) by now left. apply IH. intros a' Ha'. apply H. now right.
Qed.

(** X25. The sentiment lies between -6 and 4.  It is negative only if
    one of the six negative words occurs in the lower-cased headline, and
    positive only if one of the four positive words does. *)
Theorem sentiment_range_and_sign :
  forall headline : string,
    (-6 <= V24E.compute_sentiment headline <= 4)%Z /\
    ((forall w, In w ["crisis"; "collapse"; "fell"; "war"; "attack"; "assassinated"] ->
                Py.contains w (Py.lower headline) = false) ->
     (0 <= V24E.compute_sentiment headline)%Z) /\
    ((forall w, In w ["rallies"; "optimism"; "growth"; "record high"] ->
                Py.contains w (Py.lower headline) = false) ->
     (V24E.compute_sentiment headline <= 0)%Z).
Proof.
  intros headline. unfold V24E.compute_sentiment.
  set (hit := fun w => Py.contains w (Py.lower headline)).
  pose proof (filter_length_le hit ["rallies"; "optimism"; "growth"; "record high"]) as P.
  pose proof (filter_length_le hit
                ["crisis"; "collapse"; "fell"; "war"; "attack"; "assassinated"]) as N.
  cbn [List.length] in P, N. split; [lia|]. split; intros H.
  - rewrite (filter_none hit _ H). cbn [List.length]. lia.
  - rewrite (filter_none hit _ H). cbn [List.length]. lia.
Qed.

Lemma sentiment_range_and_sign_witness :
  (0 <= V24E.compute_sentiment "Stocks rally on growth optimism")%Z /\
  (V24E.compute_sentiment "Markets fell as war spreads" <= 0)%Z.
Proof.
  split.
  - apply (proj1 (proj2 (sentiment_range_and_sign "Stocks rally on growth optimism"))).
    intros w Hin. simpl in Hin.
    repeat (destruct Hin as [<-|Hin]; [reflexivity|]). contradiction.
  - apply (proj2 (proj2 (sentiment_range_and_sign "Markets fell as war spreads"))).
    intros w Hin. simpl in Hin.
    repeat (destruct Hin as [<-|Hin]; [reflexivity|]). contradiction.
Defined.

End CaseAndSentiment.
